(** * LTV / CAC calculators: a shallow embedding of the metrics code

    The repository holds three Streamlit scripts that compute the same
    business metrics with small differences:

    - [app.py]                                  (module [App]),
    - [calculator.py]                           (module [Calculator]),
    - [LTV_Calculator_Project/calculator.py]    (module [Project]).

    Numbers.  Python floats are read as exact rationals ([Q]).  This is
    sound for what a statement says about guards, sentinels, thresholds
    and order; it is not for an equality between two differently computed
    numbers, which binary64 only keeps up to rounding.  Where a statement
    is of that kind, the arithmetic is taken again with a rounding after
    every operation (module [Rounded]) and in binary64 itself (module
    [Binary64]).  Integer widgets
    ([st.number_input] with integer bounds, [st.slider]) yield [Z] and are
    injected into [Q] where Python's true division [/] makes them floats.
    Equalities between computed rationals are stated with [==] ([Qeq]).

    Errors.  Python's [/] raises [ZeroDivisionError] on a zero divisor, so
    division is the fallible operation [truediv].  Inside the scripts, a
    division written directly with [/] has a non-zero literal divisor
    ([100] or [12]); in statements, [/] is the quotient of rationals.

    State.  [st.session_state] is a dictionary that outlives one run of the
    script; it is a [gmap string Q] threaded through the script monad [M]. *)

From Stdlib Require Import QArith Qabs ZArith String List Lia Lra Psatz.
From Stdlib Require Import Floats.PrimFloat.
From stdpp Require Import base gmap strings.

Import ListNotations.
Local Open Scope Q_scope.
Local Open Scope string_scope.

(** ** Python values and operators *)

(** [x < y] on floats, as a boolean. *)
Definition Qltb (x y : Q) : bool := negb (Qle_bool y x).

Inductive exn : Set :=
| ZeroDivisionError
| AttributeError.

Inductive result (A : Type) : Type :=
| Ok (a : A)
| Raise (e : exn).

Arguments Ok {A} a.
Arguments Raise {A} e.

#[global] Instance result_ret : MRet result := fun A a => Ok a.

#[global] Instance result_bind : MBind result := fun A B k r =>
  match r with
  | Ok a => k a
  | Raise e => Raise e
  end.

(** Python's [x / y] on floats. *)
Definition truediv (x y : Q) : result Q :=
  if Qeq_bool y 0 then Raise ZeroDivisionError else Ok (x / y).

(** What [st.metric] is given: an f-string that formats a number
    ([f"{v:.2f}"], possibly with a unit after it), or a fixed text. *)
Inductive shown : Type :=
| Number (value : Q) (decimals : nat) (suffix : string)
| Literal (text : string).

(** ** Session state and the script monad *)

(** [st.session_state]: keys are attribute names. *)
Abbreviation session := (gmap string Q).

(** A run of a script reads and writes the session and may stop with an
    exception; what was written before the exception stays written. *)
Definition M (A : Type) : Type := session -> result A * session.

#[global] Instance M_ret : MRet M := fun A a s => (Ok a, s).

#[global] Instance M_bind : MBind M := fun A B k m s =>
  match m s with
  | (Ok a, s') => k a s'
  | (Raise e, s') => (Raise e, s')
  end.

Definition lift {A : Type} (r : result A) : M A := fun s => (r, s).

(** ['name' in st.session_state] *)
Definition contains (name : string) : M bool :=
  fun s => (Ok (bool_decide (is_Some (s !! name))), s).

(** [st.session_state.name] *)
Definition getattr (name : string) : M Q :=
  fun s => match s !! name with
           | Some v => (Ok v, s)
           | None => (Raise AttributeError, s)
           end.

(** [st.session_state.name = v] *)
Definition setattr (name : string) (v : Q) : M unit :=
  fun s => (Ok tt, <[name := v]> s).

(** ** app.py *)

Module App.

(** [def calculate_ltv(arpu, churn_rate, gross_margin)] *)
Definition calculate_ltv (arpu churn_rate gross_margin : Q) : result Q :=
  if Qeq_bool churn_rate 0 then Ok 0
  else inv ← truediv 1 churn_rate;
       Ok (arpu * inv * gross_margin).

Record recommendation : Type := {
  status : string;
  recommendations : list string
}.

(** [def get_recommendations(ltv_cac_ratio)] *)
Definition get_recommendations (ltv_cac_ratio : Q) : recommendation :=
  if Qltb ltv_cac_ratio 1 then
    {| status := "Critical - Immediate Action Required";
       recommendations :=
         [ "Optimize your ad spend and marketing channels";
           "Improve your conversion rate optimization (CRO)";
           "Consider increasing your prices";
           "Review and reduce your customer acquisition costs";
           "Focus on improving customer retention" ] |}
  else if Qle_bool 1 ltv_cac_ratio && Qle_bool ltv_cac_ratio 3 then
    {| status := "Healthy - Room for Improvement";
       recommendations :=
         [ "Start scaling your marketing efforts gradually";
           "Implement upselling and cross-selling strategies";
           "Focus on customer success and satisfaction";
           "Consider implementing a referral program";
           "Optimize your sales funnel" ] |}
  else
    {| status := "Excellent - Growth Opportunity";
       recommendations :=
         [ "Significantly increase marketing investment";
           "Explore new marketing channels";
           "Consider expanding to new markets";
           "Invest in product development";
           "Build a scalable customer success program" ] |}.

(** [ltv_cac_ratio = ltv / cac if cac > 0 else 0] *)
Definition ltv_cac_ratio (ltv cac : Q) : result Q :=
  if Qltb 0 cac then truediv ltv cac else Ok 0.

(** Line 117: the ratio as [st.metric] shows it. *)
Definition ltv_cac_ratio_metric (ltv cac : Q) : result shown :=
  r ← ltv_cac_ratio ltv cac; Ok (Number r 2 "").

(** [payback_period = cac / (arpu * gross_margin)
                      if arpu * gross_margin > 0 else 0] *)
Definition payback_period (cac arpu gross_margin : Q) : result Q :=
  if Qltb 0 (arpu * gross_margin) then truediv cac (arpu * gross_margin)
  else Ok 0.


(** Lines 77-105: the four widgets. *)
Record inputs : Type := {
  in_arpu : Q;
  in_churn_rate_pct : Q;
  in_gross_margin_pct : Q;
  in_cac : Q
}.

(** Their bounds ([min_value], [max_value]). *)
Definition widgets_ok (i : inputs) : Prop :=
  0 <= in_arpu i
  /\ 0 <= in_churn_rate_pct i <= 100
  /\ 0 <= in_gross_margin_pct i <= 100
  /\ 0 <= in_cac i.

Record outputs : Type := {
  out_ltv : Q;
  out_ltv_cac_ratio : Q;
  out_payback_period : Q;
  out_recommendations : recommendation
}.

(** Lines 77-121: one run of the script. *)
Definition script (i : inputs) : result outputs :=
  let arpu := in_arpu i in
  let churn_rate := in_churn_rate_pct i / 100 in
  let gross_margin := in_gross_margin_pct i / 100 in
  let cac := in_cac i in
  ltv ← calculate_ltv arpu churn_rate gross_margin;
  ratio ← ltv_cac_ratio ltv cac;
  payback ← payback_period cac arpu gross_margin;
  Ok {| out_ltv := ltv; out_ltv_cac_ratio := ratio;
        out_payback_period := payback;
        out_recommendations := get_recommendations ratio |}.

End App.

(** ** test_app.py *)

Module TestApp.

(** Line 11; both widgets are integer inputs without bounds. *)
Definition average_revenue (revenue customers : Z) : result Q :=
  if (0 <? customers)%Z
  then truediv (inject_Z revenue) (inject_Z customers)
  else Ok 0.

End TestApp.

(** ** calculator.py *)

Module Calculator.

(** Tab 1: the checkbox [use_churn] selects which of two widgets gives the
    lifespan. *)
Inductive lifespan_choice : Type :=
| UseChurn (monthly_churn_pct : Q)
| DirectLifespan (years : Q).

(** Tab 3: the radio [churn_method] and the two integer widgets under it. *)
Inductive churn_method : Type :=
| LostCustomers (start_customers lost_customers : Z)
| StartEndComparison (start_customers end_customers : Z).

(** The values of the widgets of one run. *)
Record inputs : Type := {
  in_avg_purchase : Q;
  in_purchase_freq : Q;
  in_lifespan : lifespan_choice;
  in_marketing_spend : Q;
  in_new_customers : Z;
  in_churn : churn_method;
  in_purchase_value_change : Z;
  in_cac_reduction : Z
}.

(** The bounds the widgets enforce ([min_value], [max_value]). *)
Definition lifespan_choice_ok (c : lifespan_choice) : Prop :=
  match c with
  | UseChurn pct => 0 <= pct <= 100
  | DirectLifespan years => 0 <= years
  end.

Definition churn_method_ok (m : churn_method) : Prop :=
  match m with
  | LostCustomers start lost => (0 <= start)%Z /\ (0 <= lost)%Z
  | StartEndComparison start end_ => (0 <= start)%Z /\ (0 <= end_)%Z
  end.

Definition widgets_ok (i : inputs) : Prop :=
  0 <= in_avg_purchase i /\ 0 <= in_purchase_freq i
  /\ lifespan_choice_ok (in_lifespan i)
  /\ 0 <= in_marketing_spend i /\ (0 <= in_new_customers i)%Z
  /\ churn_method_ok (in_churn i)
  /\ (-50 <= in_purchase_value_change i <= 100)%Z
  /\ (-50 <= in_cac_reduction i <= 50)%Z.

(** Lines 29-32: defaults of the two session scalars. *)
Definition init_session : M unit :=
  has_ltv ← contains "base_ltv";
  (if negb has_ltv then setattr "base_ltv" 0 else mret tt);;
  has_cac ← contains "base_cac";
  (if negb has_cac then setattr "base_cac" 0 else mret tt).

(** Lines 70-83. *)
Definition customer_lifespan (c : lifespan_choice) : result Q :=
  match c with
  | UseChurn pct =>
      let monthly_churn := pct / 100 in
      truediv 1 (monthly_churn * 12)
  | DirectLifespan years => Ok years
  end.

(** Line 86. *)
Definition ltv (avg_purchase purchase_freq customer_lifespan : Q) : Q :=
  avg_purchase * purchase_freq * customer_lifespan.

Definition tab1 (i : inputs) : M (Q * Q) :=
  lifespan ← lift (customer_lifespan (in_lifespan i));
  let ltv := ltv (in_avg_purchase i) (in_purchase_freq i) lifespan in
  setattr "base_ltv" ltv;;
  mret (ltv, lifespan).

(** Line 128. *)
Definition cac (marketing_spend : Q) (new_customers : Z) : result Q :=
  if (0 <? new_customers)%Z
  then truediv marketing_spend (inject_Z new_customers)
  else Ok 0.

(** Line 130.  Its test on [locals()] holds whenever the line is reached:
    tab 1 has bound both names. *)
Definition monthly_revenue (avg_purchase purchase_freq : Q) : Q :=
  avg_purchase * purchase_freq / 12.

(** Line 131. *)
Definition payback_period (cac monthly_revenue : Q) : result Q :=
  if Qltb 0 monthly_revenue then truediv cac monthly_revenue else Ok 0.

(** The coloured boxes: [st.success], [st.info], [st.warning], [st.error]. *)
Inductive alert : Set := st_success | st_info | st_warning | st_error.

(** Lines 145-153: the payback period is shown only when positive. *)
Definition payback_banner (payback_period : Q) : option (alert * shown) :=
  if Qltb 0 payback_period then
    let text := Number payback_period 1 " months" in
    if Qltb payback_period 3 then Some (st_success, text)
    else if Qltb payback_period 6 then Some (st_info, text)
    else if Qltb payback_period 12 then Some (st_warning, text)
    else Some (st_error, text)
  else None.


Definition tab2 (i : inputs) : M (Q * Q * Q) :=
  cac ← lift (cac (in_marketing_spend i) (in_new_customers i));
  setattr "base_cac" cac;;
  let monthly_revenue :=
    monthly_revenue (in_avg_purchase i) (in_purchase_freq i) in
  payback_period ← lift (payback_period cac monthly_revenue);
  mret (cac, monthly_revenue, payback_period).

(** Lines 197-220. *)
Definition churn_rate (m : churn_method) : result Q :=
  match m with
  | LostCustomers start_customers lost_customers =>
      if (0 <? start_customers)%Z
      then truediv (inject_Z lost_customers) (inject_Z start_customers)
      else Ok 0
  | StartEndComparison start_customers end_customers =>
      if (0 <? start_customers)%Z
      then truediv (inject_Z (start_customers - end_customers))
                   (inject_Z start_customers)
      else Ok 0
  end.

(** Line 224: [1 - (1-churn_rate)**12]. *)
Definition annual_churn (churn_rate : Q) : Q := 1 - (1 - churn_rate) ^ 12.

(** Line 225, the metric "Average Customer Lifespan" of tab 3. *)
Definition lifespan_metric (churn_rate : Q) : result shown :=
  if Qltb 0 churn_rate
  then years ← truediv 1 (churn_rate * 12); Ok (Number years 1 " years")
  else Ok (Literal "∞").

Definition tab3 (i : inputs) : M (Q * Q * shown) :=
  churn_rate ← lift (churn_rate (in_churn i));
  lifespan ← lift (lifespan_metric churn_rate);
  mret (churn_rate, annual_churn churn_rate, lifespan).

(** Lines 330-331. *)
Definition new_ltv (base_ltv : Q) (purchase_value_change : Z) : Q :=
  base_ltv * (1 + inject_Z purchase_value_change / 100).

Definition new_cac (base_cac : Q) (cac_reduction : Z) : Q :=
  base_cac * (1 + inject_Z cac_reduction / 100).

(** Lines 349, 350 and 363 are one expression at three pairs of
    arguments: [l / c if c > 0 else 0]. *)
Definition ratio (ltv cac : Q) : result Q :=
  if Qltb 0 cac then truediv ltv cac else Ok 0.

(** Line 355, the delta shown under "New LTV/CAC Ratio". *)
Definition ratio_delta (new_ratio current_ratio : Q) : result shown :=
  if Qltb 0 current_ratio
  then q ← truediv new_ratio current_ratio;
       Ok (Number ((q - 1) * 100) 1 "%")
  else Ok (Literal "N/A").

Record scenario : Type := {
  sc_new_ltv : Q;
  sc_new_cac : Q;
  sc_current_ratio : Q;
  sc_new_ratio : Q;
  sc_ratio_delta : shown
}.

Definition tab5 (i : inputs) : M scenario :=
  base_ltv ← getattr "base_ltv";
  let new_ltv := new_ltv base_ltv (in_purchase_value_change i) in
  base_cac ← getattr "base_cac";
  let new_cac := new_cac base_cac (in_cac_reduction i) in
  current_ratio ←
    (base_cac ← getattr "base_cac";
     base_ltv ← getattr "base_ltv";
     lift (ratio base_ltv base_cac));
  new_ratio ← lift (ratio new_ltv new_cac);
  delta ← lift (ratio_delta new_ratio current_ratio);
  mret {| sc_new_ltv := new_ltv; sc_new_cac := new_cac;
          sc_current_ratio := current_ratio; sc_new_ratio := new_ratio;
          sc_ratio_delta := delta |}.

(** The four benchmarks of the footer (lines 376-379). *)
Inductive tier : Set := Critical | NeedsWork | Healthy | Excellent.

(** Lines 386-417: which branch of the footer is rendered. *)
Definition classify (ratio : Q) : tier :=
  if Qltb ratio 1 then Critical
  else if Qltb ratio 3 then NeedsWork
  else if Qltb ratio 5 then Healthy
  else Excellent.

(** The call each branch makes and the headline it prints before the
    ratio. *)
Definition headline (t : tier) : alert * string :=
  match t with
  | Critical => (st_error, "Critical LTV/CAC Ratio")
  | NeedsWork => (st_warning, "Below Target LTV/CAC Ratio")
  | Healthy => (st_success, "Good LTV/CAC Ratio")
  | Excellent => (st_success, "Excellent LTV/CAC Ratio")
  end.

(** Lines 362-417.  Line 383 also prints [int(ratio)], which is left out
    here: it is defined for every finite ratio. *)
Definition footer : M (option (Q * tier)) :=
  has_ltv ← contains "base_ltv";
  has_cac ← contains "base_cac";
  if has_ltv && has_cac then
    base_cac ← getattr "base_cac";
    base_ltv ← getattr "base_ltv";
    ratio ← lift (ratio base_ltv base_cac);
    mret (Some (ratio, classify ratio))
  else mret None.

(** Everything one run renders from the numbers above. *)
Record outputs : Type := {
  out_ltv : Q;
  out_customer_lifespan : Q;
  out_cac : Q;
  out_monthly_revenue : Q;
  out_payback_period : Q;
  out_churn_rate : Q;
  out_annual_churn : Q;
  out_lifespan_metric : shown;
  out_scenario : scenario;
  out_footer : option (Q * tier)
}.

(** One run of the script, top to bottom: the session defaults, tabs 1, 2,
    3 and 5 and the footer.  Of tab 2 the CAC and the payback period are
    run; its other metrics ([monthly_roi], [cac_analysis], the breakdown)
    and the boxes of tab 4 are separate definitions below. *)
Definition script (i : inputs) : M outputs :=
  init_session;;
  '(ltv, lifespan) ← tab1 i;
  '(cac, monthly_revenue, payback_period) ← tab2 i;
  '(churn_rate, annual, lifespan_shown) ← tab3 i;
  scenario ← tab5 i;
  foot ← footer;
  mret {| out_ltv := ltv; out_customer_lifespan := lifespan;
          out_cac := cac; out_monthly_revenue := monthly_revenue;
          out_payback_period := payback_period;
          out_churn_rate := churn_rate; out_annual_churn := annual;
          out_lifespan_metric := lifespan_shown;
          out_scenario := scenario; out_footer := foot |}.

(** Lines 156-162: the metric "Monthly ROI", shown when cac > 0. *)
Definition monthly_roi (cac monthly_revenue : Q) : result (option Q) :=
  if Qltb 0 cac
  then q ← truediv (monthly_revenue - cac / 12) (cac / 12);
       Ok (Some (q * 100))
  else Ok None.


(** Lines 273-278, 281-286 and 289-294: the three boxes of "Key
    Insights"; the rates are percentages as entered. *)
Definition retention_insight (retention_rate : Q) : alert :=
  if Qltb retention_rate 30 then st_error
  else if Qltb retention_rate 50 then st_warning
  else st_success.

Definition upsell_insight (upsell_rate : Q) : alert :=
  if Qltb upsell_rate 15 then st_error
  else if Qltb upsell_rate 25 then st_warning
  else st_success.

Definition referral_insight (referral_rate : Q) : alert :=
  if Qltb referral_rate 5 then st_error
  else if Qltb referral_rate 15 then st_warning
  else st_success.

End Calculator.

(** ** LTV_Calculator_Project/calculator.py

    Tabs 1, 3 and 5 are those of [calculator.py], line for line; tab 2 and
    the footer differ. *)

Module Project.

(** Line 114. *)
Definition cac (marketing_spend : Q) (new_customers : Z) : result Q :=
  if (0 <? new_customers)%Z
  then truediv marketing_spend (inject_Z new_customers)
  else Ok 0.

(** Line 120, the value of the metric "LTV/CAC Ratio". *)
Definition ltv_cac_ratio_metric (ltv cac : Q) : result shown :=
  if Qltb 0 cac
  then q ← truediv ltv cac; Ok (Number q 2 "")
  else Ok (Literal "∞").

(** Lines 121-123, the value of the metric "CAC Payback Period". *)
Definition cac_payback_metric (cac avg_purchase purchase_freq : Q)
  : result shown :=
  if Qltb 0 (avg_purchase * purchase_freq)
  then q ← truediv cac (avg_purchase * purchase_freq / 12);
       Ok (Number q 1 " months")
  else Ok (Literal "N/A").

(** Lines 117-123: the metrics of the right column of tab 2, by label. *)
Definition tab2_metrics (ltv cac avg_purchase purchase_freq : Q)
  : result (list (string * shown)) :=
  let first := ("Customer Acquisition Cost (CAC)", Number cac 2 "") in
  if Qltb 0 ltv then
    r ← ltv_cac_ratio_metric ltv cac;
    p ← cac_payback_metric cac avg_purchase purchase_freq;
    Ok [first; ("LTV/CAC Ratio", r); ("CAC Payback Period", p)]
  else Ok [first].

(** Line 304. *)
Definition ratio (ltv cac : Q) : result Q :=
  if Qltb 0 cac then truediv ltv cac else Ok 0.

(** Lines 306-332: the footer has three branches. *)
Inductive band : Set := BandCritical | BandImprove | BandStrong.

Definition classify (ratio : Q) : band :=
  if Qltb ratio 1 then BandCritical
  else if Qltb ratio 3 then BandImprove
  else BandStrong.

End Project.

(** ** Tab 5 of calculator.py with rounded arithmetic

    A binary floating-point operation computes the exact result and rounds
    it.  Here every operation of lines 330-331, 349 and 350 is followed by
    a rounding [rnd], which the statements constrain.  The slider value is
    an integer, and [p / 100] on integers is one correctly rounded
    division. *)

Module Rounded.

Section Rounding.

Variable rnd : Q -> Q.

(** [1 + p/100] *)
Definition factor (p : Z) : Q := rnd (1 + rnd (inject_Z p / 100)).

(** Lines 330-331. *)
Definition new_ltv (base_ltv : Q) (purchase_value_change : Z) : Q :=
  rnd (base_ltv * factor purchase_value_change).

Definition new_cac (base_cac : Q) (cac_reduction : Z) : Q :=
  rnd (base_cac * factor cac_reduction).

(** Lines 349 and 350: [l / c if c > 0 else 0]. *)
Definition ratio (ltv cac : Q) : result Q :=
  if Qltb 0 cac then q ← truediv ltv cac; Ok (rnd q) else Ok 0.

End Rounding.

End Rounded.

(** ** Tab 5 of calculator.py in binary64

    The same lines on the machine's floats.  A slider value is given as the
    float of that integer, which is exact; the division is guarded, so it
    is never by zero. *)

Module Binary64.

Local Open Scope float_scope.

(** Lines 330-331. *)
Definition new_ltv (base_ltv purchase_value_change : float) : float :=
  base_ltv * (1 + purchase_value_change / 100).

Definition new_cac (base_cac cac_reduction : float) : float :=
  base_cac * (1 + cac_reduction / 100).

(** Lines 349 and 350. *)
Definition ratio (ltv cac : float) : float :=
  if 0 <? cac then ltv / cac else 0.

End Binary64.

(** ** Reference definitions

    What the statements below compare the scripts with. *)

(** The spec's [classifyRatio], written from the spec's words: Critical
    below 1, NeedsWork in [1,3), Healthy in [3,5), Excellent from 5 on. *)
Definition classifyRatio_spec (ratio : Q) : Calculator.tier :=
  if Qltb ratio 1 then Calculator.Critical
  else if Qltb ratio 3 then Calculator.NeedsWork
  else if Qltb ratio 5 then Calculator.Healthy
  else Calculator.Excellent.

(** The spec's [computeRatio], written from the spec's words: ltv/cac when
    cac > 0, the text "∞" when cac = 0 and ltv > 0, else 0. *)
Definition computeRatio_spec (ltv cac : Q) : shown :=
  if Qltb 0 cac then Number (ltv / cac) 2 ""
  else if Qltb 0 ltv then Literal "∞"
  else Number 0 2 "".


(** The session after lines 29-32 of [calculator.py]. *)
Definition init_state (s : session) : session :=
  let s1 := if s !! "base_ltv" is Some _ then s else <["base_ltv" := 0]> s in
  if s1 !! "base_cac" is Some _ then s1 else <["base_cac" := 0]> s1.

(** Tab 5 of [calculator.py] as a function of the two baselines it reads
    from the session. *)
Definition scenario_of (base_ltv base_cac : Q) (i : Calculator.inputs)
  : result Calculator.scenario :=
  let new_ltv :=
    Calculator.new_ltv base_ltv (Calculator.in_purchase_value_change i) in
  let new_cac :=
    Calculator.new_cac base_cac (Calculator.in_cac_reduction i) in
  current_ratio ← Calculator.ratio base_ltv base_cac;
  new_ratio ← Calculator.ratio new_ltv new_cac;
  delta ← Calculator.ratio_delta new_ratio current_ratio;
  Ok {| Calculator.sc_new_ltv := new_ltv;
        Calculator.sc_new_cac := new_cac;
        Calculator.sc_current_ratio := current_ratio;
        Calculator.sc_new_ratio := new_ratio;
        Calculator.sc_ratio_delta := delta |}.

(** What a run of [calculator.py] renders, as a function of the widgets
    alone. *)
Definition rendered (i : Calculator.inputs) : result Calculator.outputs :=
  lifespan ← Calculator.customer_lifespan (Calculator.in_lifespan i);
  let ltv :=
    Calculator.ltv (Calculator.in_avg_purchase i)
                   (Calculator.in_purchase_freq i) lifespan in
  cac ← Calculator.cac (Calculator.in_marketing_spend i)
                       (Calculator.in_new_customers i);
  let monthly_revenue :=
    Calculator.monthly_revenue (Calculator.in_avg_purchase i)
                               (Calculator.in_purchase_freq i) in
  payback_period ← Calculator.payback_period cac monthly_revenue;
  churn_rate ← Calculator.churn_rate (Calculator.in_churn i);
  lifespan_shown ← Calculator.lifespan_metric churn_rate;
  scenario ← scenario_of ltv cac i;
  ratio ← Calculator.ratio ltv cac;
  Ok {| Calculator.out_ltv := ltv;
        Calculator.out_customer_lifespan := lifespan;
        Calculator.out_cac := cac;
        Calculator.out_monthly_revenue := monthly_revenue;
        Calculator.out_payback_period := payback_period;
        Calculator.out_churn_rate := churn_rate;
        Calculator.out_annual_churn := Calculator.annual_churn churn_rate;
        Calculator.out_lifespan_metric := lifespan_shown;
        Calculator.out_scenario := scenario;
        Calculator.out_footer := Some (ratio, Calculator.classify ratio) |}.

(** How alarming a box is, and where a tier stands among the four. *)
Definition severity (a : Calculator.alert) : nat :=
  match a with
  | Calculator.st_success => 0
  | Calculator.st_info => 1
  | Calculator.st_warning => 2
  | Calculator.st_error => 3
  end.

Definition tier_rank (t : Calculator.tier) : nat :=
  match t with
  | Calculator.Critical => 0
  | Calculator.NeedsWork => 1
  | Calculator.Healthy => 2
  | Calculator.Excellent => 3
  end.

(** ** Facts about the operators *)

Lemma Qltb_lt (x y : Q) : Qltb x y = true <-> x < y.
Proof.
  unfold Qltb. rewrite negb_true_iff, <- not_true_iff_false, Qle_bool_iff.
  split; [apply Qnot_le_lt | apply Qlt_not_le].
Qed.

Lemma Qltb_ge (x y : Q) : Qltb x y = false <-> y <= x.
Proof.
  unfold Qltb. rewrite negb_false_iff. apply Qle_bool_iff.
Qed.

Lemma Qdiv_pos (a b : Q) : 0 < a -> 0 < b -> 0 < a / b.
Proof.
  intros Ha Hb. apply Qlt_shift_div_l; [exact Hb|]. now rewrite Qmult_0_l.
Qed.

Lemma truediv_nonzero (x y : Q) : ~ y == 0 -> truediv x y = Ok (x / y).
Proof.
  intros Hy. unfold truediv.
  destruct (Qeq_bool y 0) eqn:E; [|reflexivity].
  apply Qeq_bool_iff in E. contradiction.
Qed.

Lemma truediv_zero (x y : Q) : y == 0 -> truediv x y = Raise ZeroDivisionError.
Proof.
  intros Hy. unfold truediv. apply Qeq_bool_iff in Hy. now rewrite Hy.
Qed.

Lemma truediv_pos (x y : Q) : 0 < y -> truediv x y = Ok (x / y).
Proof.
  intros Hy. apply truediv_nonzero. intros E. rewrite E in Hy.
  exact (Qlt_irrefl 0 Hy).
Qed.

(** ** app.py: LTV from ARPU *)

(** C7.  For arpu >= 0, monthly churn in [0,1] and gross margin in [0,1],
    [calculate_ltv] returns arpu * (1/churn) * margin when churn > 0 and
    returns 0 when churn = 0; in both cases it returns, it does not raise. *)
Theorem calculate_ltv_spec (arpu churn_rate gross_margin : Q) :
  0 <= arpu -> 0 <= churn_rate <= 1 -> 0 <= gross_margin <= 1 ->
  (0 < churn_rate ->
     App.calculate_ltv arpu churn_rate gross_margin
     = Ok (arpu * (1 / churn_rate) * gross_margin))
  /\ (churn_rate == 0 ->
     App.calculate_ltv arpu churn_rate gross_margin = Ok 0).
Proof.
  intros _ _ _. unfold App.calculate_ltv. split; intros Hc.
  - destruct (Qeq_bool churn_rate 0) eqn:E.
    + apply Qeq_bool_iff in E. rewrite E in Hc. now apply Qlt_irrefl in Hc.
    + rewrite truediv_pos by exact Hc. reflexivity.
  - apply Qeq_bool_iff in Hc. now rewrite Hc.
Qed.

Lemma calculate_ltv_spec_witness :
  App.calculate_ltv 100 (5 # 100) (70 # 100)
    = Ok (100 * (1 / (5 # 100)) * (70 # 100))
  /\ App.calculate_ltv 100 0 (70 # 100) = Ok 0.
Proof.
  split.
  - apply (calculate_ltv_spec 100 (5 # 100) (70 # 100)); try split; lra.
  - apply (calculate_ltv_spec 100 0 (70 # 100)); try split; lra.
Defined.

(** ** Guarded quotients

    The three scripts share one pattern, [n / d if d > 0 else 0]. *)

Lemma guarded_quotient_pos (n d : Q) :
  0 < d -> (if Qltb 0 d then truediv n d else Ok 0) = Ok (n / d).
Proof.
  intros Hd. rewrite (proj2 (Qltb_lt 0 d) Hd). now apply truediv_pos.
Qed.

Lemma guarded_quotient_zero (n d : Q) :
  d <= 0 -> (if Qltb 0 d then truediv n d else Ok 0) = Ok 0.
Proof.
  intros Hd. now rewrite (proj2 (Qltb_ge 0 d) Hd).
Qed.

Lemma inject_Z_pos (n : Z) : (0 < n)%Z -> 0 < inject_Z n.
Proof.
  intros Hn. change 0 with (inject_Z 0). now rewrite <- Zlt_Qlt.
Qed.

(** ** The guarded computations of calculator.py return *)

Lemma cac_eq (marketing_spend : Q) (new_customers : Z) :
  Calculator.cac marketing_spend new_customers
  = Ok (if (0 <? new_customers)%Z
        then marketing_spend / inject_Z new_customers else 0).
Proof.
  unfold Calculator.cac. destruct (0 <? new_customers)%Z eqn:E; [|reflexivity].
  apply truediv_pos, inject_Z_pos. lia.
Qed.

Lemma ratio_eq (ltv cac : Q) :
  Calculator.ratio ltv cac = Ok (if Qltb 0 cac then ltv / cac else 0).
Proof.
  unfold Calculator.ratio. destruct (Qltb 0 cac) eqn:E; [|reflexivity].
  now apply truediv_pos, Qltb_lt.
Qed.

Lemma payback_period_eq (cac monthly_revenue : Q) :
  Calculator.payback_period cac monthly_revenue
  = Ok (if Qltb 0 monthly_revenue then cac / monthly_revenue else 0).
Proof. exact (ratio_eq cac monthly_revenue). Qed.

Lemma churn_rate_eq (m : Calculator.churn_method) :
  Calculator.churn_rate m
  = Ok match m with
       | Calculator.LostCustomers start lost =>
           if (0 <? start)%Z then inject_Z lost / inject_Z start else 0
       | Calculator.StartEndComparison start end_ =>
           if (0 <? start)%Z
           then inject_Z (start - end_) / inject_Z start else 0
       end.
Proof.
  destruct m as [start lost|start end_]; unfold Calculator.churn_rate;
    (destruct (0 <? start)%Z eqn:E; [|reflexivity]);
    apply truediv_pos, inject_Z_pos; lia.
Qed.

Lemma lifespan_metric_eq (churn_rate : Q) :
  Calculator.lifespan_metric churn_rate
  = Ok (if Qltb 0 churn_rate
        then Number (1 / (churn_rate * 12)) 1 " years" else Literal "∞").
Proof.
  unfold Calculator.lifespan_metric.
  destruct (Qltb 0 churn_rate) eqn:E; [|reflexivity].
  apply Qltb_lt in E. rewrite truediv_pos by lra. reflexivity.
Qed.

Lemma ratio_delta_eq (new_ratio current_ratio : Q) :
  Calculator.ratio_delta new_ratio current_ratio
  = Ok (if Qltb 0 current_ratio
        then Number ((new_ratio / current_ratio - 1) * 100) 1 "%"
        else Literal "N/A").
Proof.
  unfold Calculator.ratio_delta.
  destruct (Qltb 0 current_ratio) eqn:E; [|reflexivity].
  apply Qltb_lt in E. rewrite truediv_pos by exact E. reflexivity.
Qed.

Lemma scenario_of_total (base_ltv base_cac : Q) (i : Calculator.inputs) :
  exists sc, scenario_of base_ltv base_cac i = Ok sc
    /\ Calculator.sc_new_ltv sc
       = Calculator.new_ltv base_ltv (Calculator.in_purchase_value_change i)
    /\ Calculator.sc_new_cac sc
       = Calculator.new_cac base_cac (Calculator.in_cac_reduction i).
Proof.
  unfold scenario_of. rewrite !ratio_eq. cbn. rewrite ratio_delta_eq. cbn.
  eexists. split; [reflexivity|]. split; reflexivity.
Qed.

(** ** Running calculator.py against a session *)

Lemma init_session_run (s : session) :
  Calculator.init_session s = (Ok tt, init_state s).
Proof.
  unfold Calculator.init_session, init_state, contains, setattr.
  unfold mbind, M_bind, mret, M_ret.
  destruct (s !! "base_ltv") as [l|] eqn:El; cbn.
  - destruct (s !! "base_cac") as [c|] eqn:Ec; cbn; reflexivity.
  - destruct (<["base_ltv" := 0]> s !! "base_cac") as [c|] eqn:Ec; cbn;
      reflexivity.
Qed.

Lemma init_state_base_ltv (s : session) : is_Some (init_state s !! "base_ltv").
Proof.
  unfold init_state.
  destruct (s !! "base_ltv") as [l|] eqn:El;
    repeat case_match; simplify_map_eq; eauto.
Qed.

Lemma init_state_base_cac (s : session) : is_Some (init_state s !! "base_cac").
Proof.
  unfold init_state. repeat case_match; simplify_map_eq; eauto.
Qed.

Lemma init_state_present (s : session) :
  is_Some (s !! "base_ltv") -> is_Some (s !! "base_cac") -> init_state s = s.
Proof.
  intros [l Hl] [c Hc]. unfold init_state. now rewrite Hl, Hc.
Qed.

Lemma tab5_run (i : Calculator.inputs) (s : session) (base_ltv base_cac : Q) :
  s !! "base_ltv" = Some base_ltv -> s !! "base_cac" = Some base_cac ->
  Calculator.tab5 i s = (scenario_of base_ltv base_cac i, s).
Proof.
  intros Hl Hc. unfold Calculator.tab5, scenario_of, getattr, lift.
  unfold mbind, M_bind, mret, M_ret, result_bind. rewrite Hl, Hc, Hc, Hl.
  rewrite !ratio_eq, ratio_delta_eq. reflexivity.
Qed.

Lemma footer_run (s : session) (base_ltv base_cac : Q) :
  s !! "base_ltv" = Some base_ltv -> s !! "base_cac" = Some base_cac ->
  Calculator.footer s
  = (r ← Calculator.ratio base_ltv base_cac;
     Ok (Some (r, Calculator.classify r)), s).
Proof.
  intros Hl Hc. unfold Calculator.footer, contains, getattr, lift.
  unfold mbind, M_bind, mret, M_ret, result_bind. rewrite Hl, Hc. cbn.
  rewrite Hc, Hl, ratio_eq. reflexivity.
Qed.

(** A run renders [rendered i] whatever the session held, and leaves the
    two baselines in the session. *)
Lemma script_run (i : Calculator.inputs) (s : session) :
  Calculator.script i s
  = match rendered i with
    | Ok out =>
        (Ok out,
         <["base_cac" := Calculator.out_cac out]>
           (<["base_ltv" := Calculator.out_ltv out]> (init_state s)))
    | Raise e => (Raise e, init_state s)
    end.
Proof.
  unfold Calculator.script, rendered.
  unfold mbind at 1. unfold M_bind at 1. rewrite init_session_run.
  unfold Calculator.tab1, Calculator.tab2, Calculator.tab3.
  destruct (Calculator.customer_lifespan (Calculator.in_lifespan i))
    as [lifespan|e]; [|reflexivity].
  rewrite !cac_eq.
  unfold mbind, M_bind, mret, M_ret, result_bind, lift, setattr.
  rewrite !payback_period_eq, !churn_rate_eq, !lifespan_metric_eq.
  set (ltv := Calculator.ltv _ _ lifespan).
  set (cac := if (0 <? _)%Z then _ else _).
  destruct (scenario_of_total ltv cac i) as (sc & Hsc & _).
  set (s' := <["base_cac" := cac]> (<["base_ltv" := ltv]> (init_state s))).
  assert (Hl : s' !! "base_ltv" = Some ltv) by (subst s'; now simplify_map_eq).
  assert (Hc : s' !! "base_cac" = Some cac) by (subst s'; now simplify_map_eq).
  rewrite (tab5_run i s' ltv cac Hl Hc), Hsc.
  rewrite (footer_run s' ltv cac Hl Hc), !ratio_eq. reflexivity.
Qed.

(** ** Lifespan from churn (calculator.py, tabs 1 and 3) *)

Lemma customer_lifespan_pos (pct : Q) :
  0 < pct ->
  Calculator.customer_lifespan (Calculator.UseChurn pct)
  = Ok (1 / (pct / 100 * 12)).
Proof.
  intros Hp. unfold Calculator.customer_lifespan. apply truediv_pos.
  assert (0 < pct / 100) by (apply Qdiv_pos; lra). lra.
Qed.

Lemma lifespan_metric_pos (churn_rate : Q) :
  0 < churn_rate ->
  Calculator.lifespan_metric churn_rate
  = Ok (Number (1 / (churn_rate * 12)) 1 " years").
Proof.
  intros Hc. unfold Calculator.lifespan_metric.
  rewrite (proj2 (Qltb_lt 0 churn_rate) Hc), truediv_pos by lra. reflexivity.
Qed.

Lemma lifespan_metric_zero (churn_rate : Q) :
  churn_rate <= 0 ->
  Calculator.lifespan_metric churn_rate = Ok (Literal "∞").
Proof.
  intros Hc. unfold Calculator.lifespan_metric.
  now rewrite (proj2 (Qltb_ge 0 churn_rate) Hc).
Qed.

(** C1.  At a monthly churn of 0, which the widget of tab 1 allows, the
    conversion of tab 1 raises [ZeroDivisionError] and the run of the
    script stops there; the same conversion in tab 3 is guarded and shows
    the sentinel. *)
Theorem customer_lifespan_zero_churn_raises :
  Calculator.lifespan_choice_ok (Calculator.UseChurn 0)
  /\ Calculator.customer_lifespan (Calculator.UseChurn 0)
     = Raise ZeroDivisionError
  /\ (forall (i : Calculator.inputs) (s : session),
        Calculator.in_lifespan i = Calculator.UseChurn 0 ->
        fst (Calculator.script i s) = Raise ZeroDivisionError)
  /\ Calculator.lifespan_metric 0 = Ok (Literal "∞").
Proof.
  split; [cbn; lra|]. split; [reflexivity|]. split; [|reflexivity].
  intros i s Hi. rewrite script_run. unfold rendered. now rewrite Hi.
Qed.

(** ** The LTV/CAC ratio *)

(** C2, as stated, fails: with ltv = 1400 and cac = 0 the ratio of app.py
    is the number 0, not the text "∞"; and with ltv = 0 the script that
    has the "∞" shows no ratio at all. *)
Lemma computeRatio_counterexample :
  App.ltv_cac_ratio 1400 0 = Ok 0
  /\ computeRatio_spec 1400 0 = Literal "∞"
  /\ App.ltv_cac_ratio_metric 1400 0 <> Ok (computeRatio_spec 1400 0)
  /\ Project.tab2_metrics 0 0 50 2
     = Ok [("Customer Acquisition Cost (CAC)", Number 0 2 "")].
Proof.
  repeat split; try reflexivity. vm_compute. discriminate.
Qed.

Lemma ltv_cac_ratio_metric_spec (ltv cac : Q) :
  (0 < cac ->
     Project.ltv_cac_ratio_metric ltv cac = Ok (Number (ltv / cac) 2 ""))
  /\ (cac <= 0 -> Project.ltv_cac_ratio_metric ltv cac = Ok (Literal "∞")).
Proof.
  unfold Project.ltv_cac_ratio_metric. split; intros Hc.
  - now rewrite (proj2 (Qltb_lt 0 cac) Hc), truediv_pos.
  - now rewrite (proj2 (Qltb_ge 0 cac) Hc).
Qed.

Lemma cac_payback_metric_spec (cac avg_purchase purchase_freq : Q) :
  (0 < avg_purchase * purchase_freq ->
     Project.cac_payback_metric cac avg_purchase purchase_freq
     = Ok (Number (cac / (avg_purchase * purchase_freq / 12)) 1 " months"))
  /\ (avg_purchase * purchase_freq <= 0 ->
     Project.cac_payback_metric cac avg_purchase purchase_freq
     = Ok (Literal "N/A")).
Proof.
  unfold Project.cac_payback_metric. split; intros Hd.
  - rewrite (proj2 (Qltb_lt 0 _) Hd), truediv_pos; [reflexivity|].
    apply Qdiv_pos; [exact Hd | lra].
  - now rewrite (proj2 (Qltb_ge 0 _) Hd).
Qed.

Lemma cac_payback_metric_total (cac avg_purchase purchase_freq : Q) :
  exists p, Project.cac_payback_metric cac avg_purchase purchase_freq = Ok p.
Proof.
  destruct (Qlt_le_dec 0 (avg_purchase * purchase_freq)) as [H|H];
    eexists.
  - exact (proj1 (cac_payback_metric_spec _ _ _) H).
  - exact (proj2 (cac_payback_metric_spec _ _ _) H).
Qed.

(** C2, amended.  For ltv >= 0 and cac >= 0 the ratio computed by app.py
    and by the two calculators is ltv/cac when cac > 0 and 0 when cac = 0,
    whatever ltv is.  The text "∞" is the value of the
    metric "LTV/CAC Ratio" of tab 2 of the project script at cac = 0; that
    metric shows ltv/cac when cac > 0, and tab 2 renders it when ltv > 0
    and leaves it out when ltv = 0. *)
Theorem ratio_zero_cac (ltv cac : Q) :
  0 <= ltv -> 0 <= cac ->
  (0 < cac ->
     App.ltv_cac_ratio ltv cac = Ok (ltv / cac)
     /\ Calculator.ratio ltv cac = Ok (ltv / cac)
     /\ Project.ratio ltv cac = Ok (ltv / cac)
     /\ Project.ltv_cac_ratio_metric ltv cac = Ok (Number (ltv / cac) 2 ""))
  /\ (cac == 0 ->
     App.ltv_cac_ratio ltv cac = Ok 0
     /\ Calculator.ratio ltv cac = Ok 0
     /\ Project.ratio ltv cac = Ok 0
     /\ Project.ltv_cac_ratio_metric ltv cac = Ok (Literal "∞"))
  /\ (forall avg_purchase purchase_freq : Q,
        (0 < ltv ->
           exists m p,
             Project.ltv_cac_ratio_metric ltv cac = Ok m
             /\ Project.tab2_metrics ltv cac avg_purchase purchase_freq
                = Ok [("Customer Acquisition Cost (CAC)", Number cac 2 "");
                      ("LTV/CAC Ratio", m); ("CAC Payback Period", p)])
        /\ (ltv == 0 ->
           Project.tab2_metrics ltv cac avg_purchase purchase_freq
           = Ok [("Customer Acquisition Cost (CAC)", Number cac 2 "")])).
Proof.
  intros Hl Hc. split; [|split].
  - intros Hpos. unfold App.ltv_cac_ratio, Calculator.ratio, Project.ratio.
    rewrite guarded_quotient_pos by exact Hpos.
    repeat split. now apply ltv_cac_ratio_metric_spec.
  - intros Hz. unfold App.ltv_cac_ratio, Calculator.ratio, Project.ratio.
    rewrite guarded_quotient_zero by lra.
    repeat split. apply ltv_cac_ratio_metric_spec. lra.
  - intros avg_purchase purchase_freq. unfold Project.tab2_metrics.
    split.
    + intros Hpos. rewrite (proj2 (Qltb_lt 0 ltv) Hpos).
      destruct (cac_payback_metric_total cac avg_purchase purchase_freq)
        as [p Hp].
      destruct (Qlt_le_dec 0 cac) as [H|H].
      * exists (Number (ltv / cac) 2 ""), p.
        rewrite (proj1 (ltv_cac_ratio_metric_spec ltv cac) H), Hp.
        now split.
      * exists (Literal "∞"), p.
        rewrite (proj2 (ltv_cac_ratio_metric_spec ltv cac) H), Hp.
        now split.
    + intros Hz. rewrite (proj2 (Qltb_ge 0 ltv)) by lra. reflexivity.
Qed.

Lemma ratio_zero_cac_witness :
  App.ltv_cac_ratio 300 20 = Ok (300 / 20)
  /\ App.ltv_cac_ratio 300 0 = Ok 0
  /\ Project.ltv_cac_ratio_metric 300 0 = Ok (Literal "∞").
Proof.
  split; [|split].
  - apply (ratio_zero_cac 300 20); lra.
  - apply (ratio_zero_cac 300 0); lra.
  - apply (ratio_zero_cac 300 0); lra.
Defined.

(** ** Classification of the ratio *)

Ltac by_cases_on_Qltb :=
  repeat match goal with
         | |- context [Qltb ?x ?y] =>
             let E := fresh "E" in
             destruct (Qltb x y) eqn:E;
             [apply Qltb_lt in E | apply Qltb_ge in E]
         end.

(** The footer of calculator.py puts every ratio in exactly one of four
    tiers: Critical when ratio < 1, NeedsWork when 1 <= ratio < 3, Healthy
    when 3 <= ratio < 5, Excellent when ratio >= 5; 0.5, 2, 4 and 6 fall
    in the four tiers in this order. *)
Lemma classify_tiers :
  (forall ratio : Q,
     (Calculator.classify ratio = Calculator.Critical <-> ratio < 1)
     /\ (Calculator.classify ratio = Calculator.NeedsWork
         <-> 1 <= ratio /\ ratio < 3)
     /\ (Calculator.classify ratio = Calculator.Healthy
         <-> 3 <= ratio /\ ratio < 5)
     /\ (Calculator.classify ratio = Calculator.Excellent <-> 5 <= ratio))
  /\ Calculator.classify (1 # 2) = Calculator.Critical
  /\ Calculator.classify 2 = Calculator.NeedsWork
  /\ Calculator.classify 4 = Calculator.Healthy
  /\ Calculator.classify 6 = Calculator.Excellent.
Proof.
  split; [|repeat split].
  intros ratio. unfold Calculator.classify. by_cases_on_Qltb;
    repeat split; intros; try discriminate; try reflexivity; lra.
Qed.

(** The classifier of app.py has three bands, and 3 belongs to the middle
    one. *)
Lemma get_recommendations_status (ltv_cac_ratio : Q) :
  (ltv_cac_ratio < 1 ->
     App.status (App.get_recommendations ltv_cac_ratio)
     = "Critical - Immediate Action Required")
  /\ (1 <= ltv_cac_ratio <= 3 ->
     App.status (App.get_recommendations ltv_cac_ratio)
     = "Healthy - Room for Improvement")
  /\ (3 < ltv_cac_ratio ->
     App.status (App.get_recommendations ltv_cac_ratio)
     = "Excellent - Growth Opportunity").
Proof.
  unfold App.get_recommendations.
  destruct (Qltb ltv_cac_ratio 1) eqn:E1;
    [apply Qltb_lt in E1 | apply Qltb_ge in E1];
    (destruct (Qle_bool 1 ltv_cac_ratio) eqn:E2;
     [apply Qle_bool_iff in E2
     |apply not_true_iff_false in E2; rewrite Qle_bool_iff in E2]);
    (destruct (Qle_bool ltv_cac_ratio 3) eqn:E3;
     [apply Qle_bool_iff in E3
     |apply not_true_iff_false in E3; rewrite Qle_bool_iff in E3]);
    cbn; repeat split; intros; try reflexivity; lra.
Qed.

(** C3, as stated, fails on [get_recommendations]: it has three statuses,
    not four tiers.  At 2 its status is "Healthy - Room for Improvement",
    at 4 it is "Excellent - Growth Opportunity", the same record as at 6;
    so no reading of its statuses as tiers gives the four tiers of the
    spec, which tells 4 from 6. *)
Lemma classifyRatio_fails_on_get_recommendations :
  App.status (App.get_recommendations 2) = "Healthy - Room for Improvement"
  /\ App.status (App.get_recommendations 4) = "Excellent - Growth Opportunity"
  /\ App.get_recommendations 4 = App.get_recommendations 6
  /\ classifyRatio_spec 4 <> classifyRatio_spec 6
  /\ ~ (exists tier_of : string -> Calculator.tier,
          forall ratio : Q,
            tier_of (App.status (App.get_recommendations ratio))
            = classifyRatio_spec ratio).
Proof.
  repeat split; try reflexivity; try discriminate.
  intros [tier_of H]. pose proof (H 4) as H4. pose proof (H 6) as H6.
  change (App.status (App.get_recommendations 6))
    with (App.status (App.get_recommendations 4)) in H6.
  rewrite H4 in H6. discriminate H6.
Qed.

(** C3, amended.  The footer of calculator.py puts every ratio in exactly
    one of four tiers with fixed boundaries: Critical when ratio < 1,
    NeedsWork when 1 <= ratio < 3, Healthy when 3 <= ratio < 5, Excellent
    when ratio >= 5; 0.5, 2, 4 and 6 fall in the four tiers in this order.
    [get_recommendations] of app.py has three statuses instead: Critical
    when ratio < 1, "Healthy - Room for Improvement" when 1 <= ratio <= 3,
    Excellent when ratio > 3. *)
Theorem classify_four_tiers_and_three_statuses :
  (forall ratio : Q,
     (Calculator.classify ratio = Calculator.Critical <-> ratio < 1)
     /\ (Calculator.classify ratio = Calculator.NeedsWork
         <-> 1 <= ratio /\ ratio < 3)
     /\ (Calculator.classify ratio = Calculator.Healthy
         <-> 3 <= ratio /\ ratio < 5)
     /\ (Calculator.classify ratio = Calculator.Excellent <-> 5 <= ratio))
  /\ Calculator.classify (1 # 2) = Calculator.Critical
  /\ Calculator.classify 2 = Calculator.NeedsWork
  /\ Calculator.classify 4 = Calculator.Healthy
  /\ Calculator.classify 6 = Calculator.Excellent
  /\ (forall ratio : Q,
        (App.status (App.get_recommendations ratio)
         = "Critical - Immediate Action Required" <-> ratio < 1)
        /\ (App.status (App.get_recommendations ratio)
            = "Healthy - Room for Improvement"
            <-> 1 <= ratio /\ ratio <= 3)
        /\ (App.status (App.get_recommendations ratio)
            = "Excellent - Growth Opportunity" <-> 3 < ratio)).
Proof.
  destruct classify_tiers as (Hfour & H1 & H2 & H4 & H6).
  repeat (split; [assumption|]).
  intros ratio. unfold App.get_recommendations.
  destruct (Qltb ratio 1) eqn:E1;
    [apply Qltb_lt in E1 | apply Qltb_ge in E1];
    (destruct (Qle_bool 1 ratio) eqn:E2;
     [apply Qle_bool_iff in E2
     |apply not_true_iff_false in E2; rewrite Qle_bool_iff in E2]);
    (destruct (Qle_bool ratio 3) eqn:E3;
     [apply Qle_bool_iff in E3
     |apply not_true_iff_false in E3; rewrite Qle_bool_iff in E3]);
    cbn; repeat split; intros; try discriminate; try reflexivity; lra.
Qed.

(** The footer of the project script has three bands, and 3 belongs to the
    top one. *)
Lemma project_classify_bands (ratio : Q) :
  (Project.classify ratio = Project.BandCritical <-> ratio < 1)
  /\ (Project.classify ratio = Project.BandImprove <-> 1 <= ratio /\ ratio < 3)
  /\ (Project.classify ratio = Project.BandStrong <-> 3 <= ratio).
Proof.
  unfold Project.classify. by_cases_on_Qltb;
    repeat split; intros; try discriminate; try reflexivity; lra.
Qed.

(** ** Churn rate *)

(** C4, as stated, fails: the widgets accept more lost customers than
    there were at the start, and more customers at the end than at the
    start; the rate is then above 1, or negative. *)
Lemma churn_rate_out_of_range :
  Calculator.churn_method_ok (Calculator.LostCustomers 10 50)
  /\ (exists r, Calculator.churn_rate (Calculator.LostCustomers 10 50) = Ok r
                /\ r == 5 /\ ~ r <= 1)
  /\ Calculator.churn_method_ok (Calculator.StartEndComparison 10 20)
  /\ (exists r,
        Calculator.churn_rate (Calculator.StartEndComparison 10 20) = Ok r
        /\ r == -1 /\ ~ 0 <= r).
Proof.
  split; [cbn; lia|]. split.
  - eexists. split; [reflexivity|]. split; [reflexivity|]. intros H.
    vm_compute in H. now apply H.
  - split; [cbn; lia|]. eexists. split; [reflexivity|].
    split; [reflexivity|]. intros H. vm_compute in H. now apply H.
Qed.

Lemma quotient_in_unit_interval (n d : Z) :
  (0 <= n <= d)%Z -> (0 < d)%Z -> 0 <= inject_Z n / inject_Z d <= 1.
Proof.
  intros [Hn Hnd] Hd.
  pose proof (inject_Z_pos d Hd) as Hd'.
  rewrite Zle_Qle in Hn, Hnd. change (inject_Z 0) with 0 in Hn. split.
  - apply Qle_shift_div_l; [exact Hd'|]. now rewrite Qmult_0_l.
  - apply Qle_shift_div_r; [exact Hd'|]. now rewrite Qmult_1_l.
Qed.

(** C4, amended.  For either method and non-negative start, lost, end,
    the churn rate is lost/start (respectively (start-end)/start) when
    start > 0 and 0 when start = 0; it lies in [0,1] when lost <= start
    (respectively end <= start). *)
Theorem churn_rate_spec (m : Calculator.churn_method) :
  Calculator.churn_method_ok m ->
  exists r, Calculator.churn_rate m = Ok r /\
    match m with
    | Calculator.LostCustomers start lost =>
        ((0 < start)%Z -> r = inject_Z lost / inject_Z start)
        /\ (start = 0%Z -> r = 0)
        /\ ((lost <= start)%Z -> 0 <= r <= 1)
    | Calculator.StartEndComparison start end_ =>
        ((0 < start)%Z -> r = inject_Z (start - end_) / inject_Z start)
        /\ (start = 0%Z -> r = 0)
        /\ ((end_ <= start)%Z -> 0 <= r <= 1)
    end.
Proof.
  intros Hm. rewrite churn_rate_eq. eexists. split; [reflexivity|].
  destruct m as [start lost|start end_]; destruct Hm as [Hs Hx];
    (destruct (0 <? start)%Z eqn:E;
     [apply Z.ltb_lt in E | apply Z.ltb_ge in E]);
    (split; [intros; (reflexivity || lia)|]);
    (split; [intros; (reflexivity || lia)|]); intros Hle;
    try (split; lra); apply quotient_in_unit_interval; lia.
Qed.

Lemma churn_rate_spec_witness :
  exists r,
    Calculator.churn_rate (Calculator.LostCustomers 1000 50) = Ok r
    /\ r = inject_Z 50 / inject_Z 1000 /\ 0 <= r <= 1.
Proof.
  destruct (churn_rate_spec (Calculator.LostCustomers 1000 50))
    as (r & Hr & Hpos & _ & Hrange); [cbn; lia|].
  exists r. split; [exact Hr|]. split; [apply Hpos; lia | apply Hrange; lia].
Defined.

(** ** Payback period *)

Lemma twelfth_pos (x : Q) : 0 < x / 12 <-> 0 < x.
Proof.
  unfold Qdiv. change (/ 12) with (1 # 12). split; intros H; lra.
Qed.






(** In tab 2 of the project script the payback metric stands under the
    test [ltv > 0]; with ltv = avg_purchase * purchase_freq * lifespan and
    non-negative inputs, it is rendered only with a positive revenue. *)
Lemma project_tab2_payback_rendered
      (avg_purchase purchase_freq lifespan cac : Q) (p : shown) ms :
  0 <= avg_purchase -> 0 <= purchase_freq -> 0 <= lifespan ->
  Project.tab2_metrics
    (Calculator.ltv avg_purchase purchase_freq lifespan)
    cac avg_purchase purchase_freq = Ok ms ->
  In ("CAC Payback Period", p) ms ->
  p = Number (cac / (avg_purchase * purchase_freq / 12)) 1 " months".
Proof.
  intros Ha Hf Hl. unfold Project.tab2_metrics, Calculator.ltv.
  destruct (Qltb 0 _) eqn:E;
    [apply Qltb_lt in E | intros [= <-] [[=]|[]]].
  assert (Hpos : 0 < avg_purchase * purchase_freq) by nra.
  rewrite (proj1 (cac_payback_metric_spec cac _ _) Hpos).
  destruct (Project.ltv_cac_ratio_metric _ cac) as [m|e]; cbn;
    [|discriminate].
  intros [= <-] [[=]|[[=]|[[= <-]|[]]]]. reflexivity.
Qed.

(** ** Monotonicity of CAC and LTV *)

(** C6, as stated, fails at the guarded case: with a spend of 100, going
    from 0 new customers to 1 raises the CAC from 0 to 100. *)
Lemma cac_not_antitone_at_zero :
  Calculator.cac 100 0 = Ok 0
  /\ Calculator.cac 100 1 = Ok (100 / 1)
  /\ ~ (forall (spend : Q) (n1 n2 : Z) (c1 c2 : Q),
          0 <= spend -> (0 <= n1 <= n2)%Z ->
          Calculator.cac spend n1 = Ok c1 ->
          Calculator.cac spend n2 = Ok c2 -> c2 <= c1).
Proof.
  split; [reflexivity|]. split; [reflexivity|]. intros H.
  specialize (H 100 0%Z 1%Z 0 (100 / 1)).
  assert (Hle : 100 / 1 <= 0)
    by (apply H; [lra | lia | reflexivity | reflexivity]).
  vm_compute in Hle. now apply Hle.
Qed.

Lemma Qdiv_le_compat_l (s a b : Q) :
  0 <= s -> 0 < a -> a <= b -> s / b <= s / a.
Proof.
  intros Hs Ha Hab.
  apply Qle_shift_div_l; [exact Ha|].
  assert (E : s / b * a == s * a / b) by (field; lra).
  rewrite E. apply Qle_shift_div_r; [lra|]. nra.
Qed.

(** C6, amended.  [cac] always returns; it is non-decreasing in the spend
    for every number of new customers, 0 included, where it is 0; it is
    non-increasing in the number of new customers from 1 on.  [ltv] is
    non-decreasing in each argument when the other two are non-negative. *)
Theorem cac_ltv_monotone :
  (forall (spend : Q) (n : Z), exists c, Calculator.cac spend n = Ok c)
  /\ (forall spend : Q, Calculator.cac spend 0 = Ok 0)
  /\ (forall (spend1 spend2 : Q) (n : Z) (c1 c2 : Q),
        (0 <= n)%Z -> spend1 <= spend2 ->
        Calculator.cac spend1 n = Ok c1 ->
        Calculator.cac spend2 n = Ok c2 -> c1 <= c2)
  /\ (forall (spend : Q) (n1 n2 : Z) (c1 c2 : Q),
        0 <= spend -> (1 <= n1 <= n2)%Z ->
        Calculator.cac spend n1 = Ok c1 ->
        Calculator.cac spend n2 = Ok c2 -> c2 <= c1)
  /\ (forall a1 a2 f l : Q,
        0 <= f -> 0 <= l -> a1 <= a2 ->
        Calculator.ltv a1 f l <= Calculator.ltv a2 f l)
  /\ (forall a f1 f2 l : Q,
        0 <= a -> 0 <= l -> f1 <= f2 ->
        Calculator.ltv a f1 l <= Calculator.ltv a f2 l)
  /\ (forall a f l1 l2 : Q,
        0 <= a -> 0 <= f -> l1 <= l2 ->
        Calculator.ltv a f l1 <= Calculator.ltv a f l2).
Proof.
  repeat apply conj.
  - intros spend n. rewrite cac_eq. eauto.
  - reflexivity.
  - intros spend1 spend2 n c1 c2 Hn Hs. rewrite !cac_eq.
    intros [= <-] [= <-].
    destruct (0 <? n)%Z eqn:E; [apply Z.ltb_lt in E|lra].
    apply inject_Z_pos in E. unfold Qdiv.
    apply Qmult_le_compat_r; [exact Hs|]. apply Qlt_le_weak.
    now apply Qinv_lt_0_compat.
  - intros spend n1 n2 c1 c2 Hs [H1 H12]. rewrite !cac_eq.
    intros [= <-] [= <-].
    rewrite (proj2 (Z.ltb_lt 0 n1)), (proj2 (Z.ltb_lt 0 n2)) by lia.
    apply Qdiv_le_compat_l; [exact Hs | apply inject_Z_pos; lia|].
    now rewrite <- Zle_Qle.
  - intros a1 a2 f l Hf Hl Ha. unfold Calculator.ltv.
    apply Qmult_le_compat_r; [|exact Hl].
    apply Qmult_le_compat_r; [exact Ha|exact Hf].
  - intros a f1 f2 l Ha Hl Hf. unfold Calculator.ltv.
    apply Qmult_le_compat_r; [|exact Hl]. nra.
  - intros a f l1 l2 Ha Hf Hl. unfold Calculator.ltv.
    assert (0 <= a * f) by nra. nra.
Qed.

Lemma cac_ltv_monotone_witness :
  (exists c1 c2, Calculator.cac 5000 50 = Ok c1
                 /\ Calculator.cac 5000 100 = Ok c2 /\ c2 <= c1)
  /\ Calculator.ltv 50 2 3 <= Calculator.ltv 60 2 3.
Proof.
  destruct cac_ltv_monotone as (_ & _ & _ & Hn & Ha & _). split.
  - exists (5000 / inject_Z 50), (5000 / inject_Z 100).
    split; [reflexivity|]. split; [reflexivity|].
    apply (Hn 5000 50%Z 100%Z); [lra | lia | reflexivity | reflexivity].
  - apply Ha; lra.
Defined.

(** ** Scenario planning (calculator.py, tab 5) *)

Lemma percent_factor_pos (p : Z) : (-100 < p)%Z -> 0 < 1 + inject_Z p / 100.
Proof.
  intros Hp. rewrite Zlt_Qlt in Hp. change (inject_Z (-100)) with (-100) in Hp.
  unfold Qdiv. change (/ 100) with (1 # 100). lra.
Qed.

(** C8.  With the baselines that the session holds, tab 5 returns
    new_ltv = base_ltv * (1 + purchase_value_change/100) and
    new_cac = base_cac * (1 + cac_reduction/100), and leaves the session as
    it was; from the baseline (300, 20), the deltas +10 and -10 give
    (330, 18). *)
Theorem tab5_applies_scenario :
  (forall (i : Calculator.inputs) (s : session) (base_ltv base_cac : Q),
     s !! "base_ltv" = Some base_ltv -> s !! "base_cac" = Some base_cac ->
     exists sc,
       Calculator.tab5 i s = (Ok sc, s)
       /\ Calculator.sc_new_ltv sc
          = base_ltv
            * (1 + inject_Z (Calculator.in_purchase_value_change i) / 100)
       /\ Calculator.sc_new_cac sc
          = base_cac * (1 + inject_Z (Calculator.in_cac_reduction i) / 100))
  /\ Calculator.new_ltv 300 10 == 330
  /\ Calculator.new_cac 20 (-10) == 18.
Proof.
  split; [|split; reflexivity].
  intros i s base_ltv base_cac Hl Hc.
  destruct (scenario_of_total base_ltv base_cac i) as (sc & Hsc & Hnl & Hnc).
  exists sc. rewrite (tab5_run i s base_ltv base_cac Hl Hc), Hsc.
  split; [reflexivity|]. split; assumption.
Qed.

Lemma tab5_applies_scenario_witness :
  let i := {| Calculator.in_avg_purchase := 50;
              Calculator.in_purchase_freq := 2;
              Calculator.in_lifespan := Calculator.DirectLifespan 3;
              Calculator.in_marketing_spend := 10000;
              Calculator.in_new_customers := 500;
              Calculator.in_churn := Calculator.LostCustomers 1000 50;
              Calculator.in_purchase_value_change := 10;
              Calculator.in_cac_reduction := -10 |} in
  let s : session := <["base_ltv" := 300]> (<["base_cac" := 20]> ∅) in
  exists sc,
    Calculator.tab5 i s = (Ok sc, s)
    /\ Calculator.sc_new_ltv sc == 330
    /\ Calculator.sc_new_cac sc == 18.
Proof.
  intros i s.
  destruct (proj1 tab5_applies_scenario i s 300 20)
    as (sc & Hrun & Hl & Hc); [reflexivity | reflexivity |].
  exists sc. split; [exact Hrun|]. rewrite Hl, Hc. split; reflexivity.
Defined.

(** Within one run, the scenario starts from the LTV and the CAC that tabs
    1 and 2 have just computed. *)
Lemma script_scenario_baseline (i : Calculator.inputs) (s : session)
      (out : Calculator.outputs) :
  fst (Calculator.script i s) = Ok out ->
  Calculator.sc_new_ltv (Calculator.out_scenario out)
  = Calculator.new_ltv (Calculator.out_ltv out)
                       (Calculator.in_purchase_value_change i)
  /\ Calculator.sc_new_cac (Calculator.out_scenario out)
     = Calculator.new_cac (Calculator.out_cac out)
                          (Calculator.in_cac_reduction i).
Proof.
  rewrite script_run.
  assert (Hfst : forall r : result Calculator.outputs,
            fst match r with
                | Ok o =>
                    (Ok o,
                     <["base_cac" := Calculator.out_cac o]>
                       (<["base_ltv" := Calculator.out_ltv o]> (init_state s)))
                | Raise e => (Raise e, init_state s)
                end = r) by (intros [o|e]; reflexivity).
  rewrite Hfst. unfold rendered.
  destruct (Calculator.customer_lifespan _) as [lifespan|e]; [|discriminate].
  rewrite cac_eq. unfold mbind, result_bind.
  rewrite payback_period_eq, churn_rate_eq, lifespan_metric_eq.
  match goal with
  | |- context [scenario_of ?l ?c i] =>
      destruct (scenario_of_total l c i) as (sc & Hsc & Hnl & Hnc);
      rewrite Hsc
  end.
  rewrite ratio_eq. intros [= <-]. cbn. split; assumption.
Qed.

(** C10, as stated, fails in binary64.  On the default page the baseline
    is (300, 100); with both sliders at +10 the new CAC is
    110.00000000000001 and the new ratio is below the current ratio 3. *)
Lemma same_delta_changes_ratio_in_binary64 :
  PrimFloat.eqb (Binary64.new_ltv 300 10) 330 = true
  /\ PrimFloat.ltb 110 (Binary64.new_cac 100 10) = true
  /\ PrimFloat.eqb (Binary64.ratio 300 100) 3 = true
  /\ PrimFloat.ltb
       (Binary64.ratio (Binary64.new_ltv 300 10) (Binary64.new_cac 100 10))
       (Binary64.ratio 300 100) = true
  /\ PrimFloat.eqb
       (Binary64.ratio (Binary64.new_ltv 300 10) (Binary64.new_cac 100 10))
       (Binary64.ratio 300 100) = false.
Proof. repeat split; reflexivity. Qed.

Lemma rnd_bounds_nonneg (rnd : Q -> Q) (u x : Q) :
  (forall x, Qabs (rnd x - x) <= u * Qabs x) -> 0 <= x ->
  (1 - u) * x <= rnd x /\ rnd x <= (1 + u) * x.
Proof.
  intros H Hx. specialize (H x). rewrite (Qabs_pos x Hx) in H.
  apply Qabs_Qle_condition in H. destruct H as [H1 H2]. split; lra.
Qed.

Lemma rnd_bounds_nonpos (rnd : Q -> Q) (u x : Q) :
  (forall x, Qabs (rnd x - x) <= u * Qabs x) -> x <= 0 ->
  (1 + u) * x <= rnd x /\ rnd x <= (1 - u) * x.
Proof.
  intros H Hx. specialize (H x). rewrite (Qabs_neg x Hx) in H.
  apply Qabs_Qle_condition in H. destruct H as [H1 H2]. split; lra.
Qed.

Lemma quotient_chain (u L C f NL NC x y NR R : Q) :
  0 <= u -> u < 1 -> 0 <= L -> 0 < C -> 0 < f ->
  (1 - u) * (L * f) <= NL -> NL <= (1 + u) * (L * f) ->
  (1 - u) * (C * f) <= NC -> NC <= (1 + u) * (C * f) ->
  x * NC == NL -> y * C == L ->
  (1 - u) * x <= NR -> NR <= (1 + u) * x ->
  (1 - u) * y <= R -> R <= (1 + u) * y ->
  0 <= NR /\ 0 <= R
  /\ (1 - u) * (1 - u) * R <= (1 + u) * (1 + u) * NR
  /\ (1 - u) * (1 - u) * NR <= (1 + u) * (1 + u) * R.
Proof.
  intros Hu0 Hu1 HL HC Hf HNL1 HNL2 HNC1 HNC2 Hx Hy HNR1 HNR2 HR1 HR2.
  assert (HCf : 0 < C * f) by now apply Qmult_lt_0_compat.
  assert (HLf : 0 <= L * f) by (apply Qmult_le_0_compat; lra).
  assert (ELf : L * f == y * (C * f)) by (rewrite <- Hy; ring).
  set (a := C * f) in *. set (b := L * f) in *.
  assert (Hlo : 0 < (1 - u) * a) by (apply Qmult_lt_0_compat; lra).
  assert (HNC : 0 < NC) by lra.
  assert (HNL0 : 0 <= NL).
  { assert (0 <= (1 - u) * b) by (apply Qmult_le_0_compat; lra). lra. }
  assert (Hy0 : 0 <= y).
  { destruct (Qlt_le_dec y 0) as [Hneg|]; [|assumption]. exfalso.
    assert (y * a < 0) by nra. lra. }
  assert (Hx0 : 0 <= x).
  { destruct (Qlt_le_dec x 0) as [Hneg|]; [|assumption]. exfalso.
    assert (x * NC < 0) by nra. lra. }
  assert (Hxy : (1 - u) * x <= (1 + u) * y).
  { assert (H1 : ((1 - u) * x) * a <= ((1 + u) * y) * a).
    { assert (x * ((1 - u) * a) <= x * NC) by nra.
      assert (E : (1 + u) * b == (1 + u) * y * a) by (rewrite ELf; ring).
      assert (E2 : (1 - u) * x * a == x * ((1 - u) * a)) by ring.
      lra. }
    destruct (Qlt_le_dec ((1 + u) * y) ((1 - u) * x)) as [Hc|]; [|assumption].
    exfalso. nra. }
  assert (Hyx : (1 - u) * y <= (1 + u) * x).
  { assert (H1 : ((1 - u) * y) * a <= ((1 + u) * x) * a).
    { assert (x * NC <= x * ((1 + u) * a)) by nra.
      assert (E : (1 - u) * b == (1 - u) * y * a) by (rewrite ELf; ring).
      assert (E2 : (1 + u) * x * a == x * ((1 + u) * a)) by ring.
      lra. }
    destruct (Qlt_le_dec ((1 + u) * x) ((1 - u) * y)) as [Hc|]; [|assumption].
    exfalso. nra. }
  assert (H0NR : 0 <= NR).
  { assert (0 <= (1 - u) * x) by (apply Qmult_le_0_compat; lra). lra. }
  assert (H0R : 0 <= R).
  { assert (0 <= (1 - u) * y) by (apply Qmult_le_0_compat; lra). lra. }
  assert (Hmono : forall c p q : Q, 0 <= c -> p <= q -> c * p <= c * q).
  { intros c p q Hc Hpq. nra. }
  assert (Hc1 : 0 <= (1 - u) * (1 - u)) by (apply Qmult_le_0_compat; lra).
  assert (Hc2 : 0 <= (1 + u) * (1 + u)) by (apply Qmult_le_0_compat; lra).
  assert (Hc3 : 0 <= (1 - u) * (1 + u)) by (apply Qmult_le_0_compat; lra).
  split; [exact H0NR|]. split; [exact H0R|]. split.
  - apply Qle_trans with ((1 - u) * (1 - u) * ((1 + u) * y));
      [now apply Hmono|].
    assert (E : (1 - u) * (1 - u) * ((1 + u) * y)
                == (1 - u) * (1 + u) * ((1 - u) * y)) by ring.
    rewrite E; clear E.
    apply Qle_trans with ((1 - u) * (1 + u) * ((1 + u) * x));
      [now apply Hmono|].
    assert (E : (1 - u) * (1 + u) * ((1 + u) * x)
                == (1 + u) * (1 + u) * ((1 - u) * x)) by ring.
    rewrite E; clear E.
    now apply Hmono.
  - apply Qle_trans with ((1 - u) * (1 - u) * ((1 + u) * x));
      [now apply Hmono|].
    assert (E : (1 - u) * (1 - u) * ((1 + u) * x)
                == (1 - u) * (1 + u) * ((1 - u) * x)) by ring.
    rewrite E; clear E.
    apply Qle_trans with ((1 - u) * (1 + u) * ((1 + u) * y));
      [now apply Hmono|].
    assert (E : (1 - u) * (1 + u) * ((1 + u) * y)
                == (1 + u) * (1 + u) * ((1 - u) * y)) by ring.
    rewrite E; clear E.
    now apply Hmono.
Qed.

Lemma rounded_factor_pos (rnd : Q -> Q) (u : Q) (p : Z) :
  0 <= u -> u <= 1 # 200 ->
  (forall x, Qabs (rnd x - x) <= u * Qabs x) ->
  (-100 < p)%Z -> 0 < Rounded.factor rnd p.
Proof.
  intros Hu0 Hu1 H Hp. unfold Rounded.factor.
  assert (Ht : -99 # 100 <= inject_Z p / 100).
  { assert (Hp' : (-99 <= p)%Z) by lia. rewrite Zle_Qle in Hp'.
    change (inject_Z (-99)) with (-99 # 1) in Hp'.
    unfold Qdiv. change (/ 100) with (1 # 100). lra. }
  set (t := inject_Z p / 100) in *.
  assert (Hq : -995 # 1000 <= rnd t).
  { destruct (Qlt_le_dec t 0) as [Hneg|Hpos].
    - destruct (rnd_bounds_nonpos rnd u t H) as [Hlo _]; [lra|]. nra.
    - destruct (rnd_bounds_nonneg rnd u t H Hpos) as [Hlo _]. nra. }
  destruct (rnd_bounds_nonneg rnd u (1 + rnd t) H) as [Hlo _]; [lra|].
  nra.
Qed.

(** C10, amended.  With cac > 0 and the same delta p > -100 on both
    sides, the new ratio equals the current one in exact arithmetic; with
    every operation rounded with a relative error of at most u (binary64:
    u = 2^-53, short of overflow and underflow) both ratios are computed,
    have the same sign, and each is within the factor
    ((1+u)/(1-u))^2 of the other. *)
Theorem same_delta_keeps_ratio_up_to_rounding
        (rnd : Q -> Q) (u ltv cac : Q) (p : Z) :
  0 <= u -> u <= 1 # 200 ->
  (forall x, Qabs (rnd x - x) <= u * Qabs x) ->
  0 < cac -> (-100 < p)%Z ->
  exists current_ratio new_ratio,
    Rounded.ratio rnd ltv cac = Ok current_ratio
    /\ Rounded.ratio rnd (Rounded.new_ltv rnd ltv p)
                         (Rounded.new_cac rnd cac p) = Ok new_ratio
    /\ (1 - u) * (1 - u) * Qabs current_ratio
       <= (1 + u) * (1 + u) * Qabs new_ratio
    /\ (1 - u) * (1 - u) * Qabs new_ratio
       <= (1 + u) * (1 + u) * Qabs current_ratio
    /\ 0 <= current_ratio * new_ratio
    /\ (u == 0 -> new_ratio == current_ratio).
Proof.
  intros Hu0 Hu1 H Hc Hp.
  pose proof (rounded_factor_pos rnd u p Hu0 Hu1 H Hp) as Hf.
  unfold Rounded.new_ltv, Rounded.new_cac.
  set (f := Rounded.factor rnd p) in *.
  assert (Hcf : 0 < cac * f) by now apply Qmult_lt_0_compat.
  destruct (rnd_bounds_nonneg rnd u (cac * f) H) as [HNC1 HNC2]; [lra|].
  set (NC := rnd (cac * f)) in *.
  assert (HNC : 0 < NC).
  { assert (0 < (1 - u) * (cac * f)) by (apply Qmult_lt_0_compat; lra). lra. }
  set (NL := rnd (ltv * f)).
  unfold Rounded.ratio.
  rewrite (proj2 (Qltb_lt 0 cac) Hc), (proj2 (Qltb_lt 0 NC) HNC).
  rewrite !truediv_pos by assumption. cbn.
  eexists _, _. split; [reflexivity|]. split; [reflexivity|].
  assert (Ex : NL / NC * NC == NL) by (field; lra).
  assert (Ey : ltv / cac * cac == ltv) by (field; lra).
  assert (Hfin : forall R NR : Q,
            0 <= NR /\ 0 <= R
            /\ (1 - u) * (1 - u) * R <= (1 + u) * (1 + u) * NR
            /\ (1 - u) * (1 - u) * NR <= (1 + u) * (1 + u) * R ->
            (u == 0 -> NR == R)).
  { intros R NR (H1 & H2 & H3 & H4) Hz. rewrite Hz in H3, H4. lra. }
  destruct (Qlt_le_dec ltv 0) as [Hneg|Hpos].
  - assert (Hlf : ltv * f <= 0) by nra.
    destruct (rnd_bounds_nonpos rnd u (ltv * f) H Hlf) as [HNL1 HNL2].
    fold NL in HNL1, HNL2.
    assert (HNL0 : NL <= 0).
    { assert ((1 - u) * (ltv * f) <= 0) by nra. lra. }
    assert (Hx0 : NL / NC <= 0).
    { destruct (Qlt_le_dec 0 (NL / NC)) as [Hc0|]; [|assumption].
      exfalso. assert (0 < NL / NC * NC) by nra. lra. }
    assert (Hy0 : ltv / cac <= 0).
    { destruct (Qlt_le_dec 0 (ltv / cac)) as [Hc0|]; [|assumption].
      exfalso. assert (0 < ltv / cac * cac) by nra. lra. }
    destruct (rnd_bounds_nonpos rnd u (NL / NC) H Hx0) as [HNR1 HNR2].
    destruct (rnd_bounds_nonpos rnd u (ltv / cac) H Hy0) as [HR1 HR2].
    assert (Ex' : - (NL / NC) * NC == - NL).
    { assert (E : - (NL / NC) * NC == - (NL / NC * NC)) by ring.
      rewrite E, Ex. reflexivity. }
    assert (Ey' : - (ltv / cac) * cac == - ltv).
    { assert (E : - (ltv / cac) * cac == - (ltv / cac * cac)) by ring.
      rewrite E, Ey. reflexivity. }
    destruct (quotient_chain u (- ltv) cac f (- NL) NC
                (- (NL / NC)) (- (ltv / cac))
                (- rnd (NL / NC)) (- rnd (ltv / cac)))
      as (HaN & HaR & Hb1 & Hb2); try assumption; try lra.
    pose proof (Hfin _ _ (conj HaN (conj HaR (conj Hb1 Hb2)))) as Heq.
    rewrite (Qabs_neg (rnd (ltv / cac))), (Qabs_neg (rnd (NL / NC))) by lra.
    repeat split; try assumption.
    + nra.
    + intros Hz. specialize (Heq Hz). lra.
  - assert (Hlf : 0 <= ltv * f) by (apply Qmult_le_0_compat; lra).
    destruct (rnd_bounds_nonneg rnd u (ltv * f) H Hlf) as [HNL1 HNL2].
    fold NL in HNL1, HNL2.
    assert (HNL0 : 0 <= NL).
    { assert (0 <= (1 - u) * (ltv * f)) by (apply Qmult_le_0_compat; lra).
      lra. }
    assert (Hx0 : 0 <= NL / NC).
    { apply Qle_shift_div_l; [exact HNC|]. now rewrite Qmult_0_l. }
    assert (Hy0 : 0 <= ltv / cac).
    { apply Qle_shift_div_l; [exact Hc|]. now rewrite Qmult_0_l. }
    destruct (rnd_bounds_nonneg rnd u (NL / NC) H Hx0) as [HNR1 HNR2].
    destruct (rnd_bounds_nonneg rnd u (ltv / cac) H Hy0) as [HR1 HR2].
    destruct (quotient_chain u ltv cac f NL NC (NL / NC) (ltv / cac)
                (rnd (NL / NC)) (rnd (ltv / cac)))
      as (HaN & HaR & Hb1 & Hb2); try lra; try assumption.
    pose proof (Hfin _ _ (conj HaN (conj HaR (conj Hb1 Hb2)))) as Heq.
    rewrite (Qabs_pos (rnd (ltv / cac))), (Qabs_pos (rnd (NL / NC))) by lra.
    repeat split; try assumption. nra.
Qed.

Lemma same_delta_keeps_ratio_up_to_rounding_witness :
  let rnd := fun x : Q => x * (1001 # 1000) in
  exists current_ratio new_ratio,
    Rounded.ratio rnd 300 100 = Ok current_ratio
    /\ Rounded.ratio rnd (Rounded.new_ltv rnd 300 10)
                         (Rounded.new_cac rnd 100 10) = Ok new_ratio
    /\ (1 - (1 # 1000)) * (1 - (1 # 1000)) * Qabs new_ratio
       <= (1 + (1 # 1000)) * (1 + (1 # 1000)) * Qabs current_ratio.
Proof.
  intros rnd.
  destruct (same_delta_keeps_ratio_up_to_rounding rnd (1 # 1000) 300 100 10)
    as (c & n & Hc & Hn & _ & Hb & _); [lra | lra | | lra | lia |].
  - intros x. subst rnd. cbn beta.
    assert (E : x * (1001 # 1000) - x == (1 # 1000) * x) by ring.
    rewrite E, Qabs_Qmult. apply Qle_refl.
  - exists c, n. repeat split; assumption.
Defined.

(** ** Determinism of a run *)

Lemma final_state_fixed (s : session) (l c : Q) :
  let s' := <["base_cac" := c]> (<["base_ltv" := l]> (init_state s)) in
  <["base_cac" := c]> (<["base_ltv" := l]> (init_state s')) = s'.
Proof.
  intros s'.
  assert (Hl : s' !! "base_ltv" = Some l) by (subst s'; now simplify_map_eq).
  assert (Hc : s' !! "base_cac" = Some c) by (subst s'; now simplify_map_eq).
  rewrite init_state_present by eauto.
  rewrite (insert_id s' "base_ltv" l Hl). exact (insert_id s' "base_cac" c Hc).
Qed.

Lemma init_state_frame (s : session) (k : string) :
  k <> "base_ltv" -> k <> "base_cac" -> init_state s !! k = s !! k.
Proof.
  intros Hl Hc. unfold init_state. repeat case_match; now simplify_map_eq.
Qed.

(** C9.  What a run of calculator.py renders (LTV, CAC, the ratios, the
    churn rates, the tier) is a function of the widgets alone: two runs
    with the same inputs render the same from any two sessions; a second
    run on the session the first has left renders the same again and
    leaves the session as it found it; no key besides [base_ltv] and
    [base_cac] is ever written.  The function of app.py reads no state at
    all. *)
Theorem script_deterministic :
  (forall (i : Calculator.inputs) (s1 s2 : session),
     fst (Calculator.script i s1) = fst (Calculator.script i s2))
  /\ (forall (i : Calculator.inputs) (s : session),
        fst (Calculator.script i s) = rendered i)
  /\ (forall (i : Calculator.inputs) (s : session),
        Calculator.script i (snd (Calculator.script i s))
        = Calculator.script i s)
  /\ (forall (i : Calculator.inputs) (s : session) (k : string),
        k <> "base_ltv" -> k <> "base_cac" ->
        snd (Calculator.script i s) !! k = s !! k).
Proof.
  assert (Hfst : forall i s, fst (Calculator.script i s) = rendered i).
  { intros i s. rewrite script_run. now destruct (rendered i). }
  repeat apply conj.
  - intros i s1 s2. now rewrite !Hfst.
  - exact Hfst.
  - intros i s. rewrite !script_run. destruct (rendered i) as [out|e]; cbn.
    + now rewrite final_state_fixed.
    + now rewrite init_state_present
        by auto using init_state_base_ltv, init_state_base_cac.
  - intros i s k Hl Hc. rewrite script_run.
    destruct (rendered i) as [out|e]; cbn.
    + rewrite !lookup_insert_ne by congruence. now apply init_state_frame.
    + now apply init_state_frame.
Qed.

(** ** Worked values *)

Example ltv_50_2_3 : Calculator.ltv 50 2 3 == 300.
Proof. reflexivity. Qed.

Example lifespan_at_5_percent :
  exists years,
    Calculator.customer_lifespan (Calculator.UseChurn 5) = Ok years
    /\ years == 5 # 3.
Proof. eexists. split; reflexivity. Qed.

Example cac_10000_500 :
  exists c, Calculator.cac 10000 500 = Ok c /\ c == 20.
Proof. eexists. split; reflexivity. Qed.

Example ratio_300_20 :
  exists r, Calculator.ratio 300 20 = Ok r /\ r == 15.
Proof. eexists. split; reflexivity. Qed.

Example annual_churn_at_5_percent :
  4596 # 10000 < Calculator.annual_churn (5 # 100) < 4597 # 10000.
Proof. split; reflexivity. Qed.

Example default_run_is_healthy :
  let i := {| Calculator.in_avg_purchase := 50;
              Calculator.in_purchase_freq := 2;
              Calculator.in_lifespan := Calculator.DirectLifespan 3;
              Calculator.in_marketing_spend := 5000;
              Calculator.in_new_customers := 50;
              Calculator.in_churn := Calculator.LostCustomers 1000 50;
              Calculator.in_purchase_value_change := 0;
              Calculator.in_cac_reduction := 0 |} in
  Calculator.widgets_ok i
  /\ exists out r,
       fst (Calculator.script i ∅) = Ok out
       /\ Calculator.out_footer out = Some (r, Calculator.Healthy)
       /\ r == 3.
Proof.
  intros i. split.
  - unfold Calculator.widgets_ok; cbn. repeat split; (lra || lia).
  - eexists _, _. split; [vm_compute; reflexivity|]. split; reflexivity.
Qed.

(** * Further properties of the scripts *)

(** ** app.py as a whole *)

Lemma hundredth_pos (x : Q) : 0 < x / 100 <-> 0 < x.
Proof.
  unfold Qdiv. change (/ 100) with (1 # 100). split; intros H; lra.
Qed.

Lemma hundredth_zero (x : Q) : x / 100 == 0 <-> x == 0.
Proof.
  unfold Qdiv. change (/ 100) with (1 # 100). split; intros H; lra.
Qed.

Lemma calculate_ltv_eq (arpu churn_rate gross_margin : Q) :
  App.calculate_ltv arpu churn_rate gross_margin
  = Ok (if Qeq_bool churn_rate 0 then 0
        else arpu * (1 / churn_rate) * gross_margin).
Proof.
  unfold App.calculate_ltv. destruct (Qeq_bool churn_rate 0) eqn:E.
  - reflexivity.
  - apply Qeq_bool_neq in E. now rewrite truediv_nonzero.
Qed.

Lemma app_ltv_cac_ratio_eq (ltv cac : Q) :
  App.ltv_cac_ratio ltv cac = Ok (if Qltb 0 cac then ltv / cac else 0).
Proof. exact (ratio_eq ltv cac). Qed.

Lemma app_payback_period_eq (cac arpu gross_margin : Q) :
  App.payback_period cac arpu gross_margin
  = Ok (if Qltb 0 (arpu * gross_margin)
        then cac / (arpu * gross_margin) else 0).
Proof. exact (ratio_eq cac (arpu * gross_margin)). Qed.

(** X1.  app.py never raises, whatever the four widgets hold: each of its
    three divisions is reached only with a non-zero divisor. *)
Theorem app_script_returns (i : App.inputs) :
  exists out, App.script i = Ok out.
Proof.
  unfold App.script. rewrite calculate_ltv_eq. cbn.
  rewrite app_ltv_cac_ratio_eq. cbn. rewrite app_payback_period_eq. cbn.
  eauto.
Qed.

(** X3.  In app.py a churn of 0, and likewise a cost of acquisition of 0,
    gives the ratio 0 and with it the status "Critical - Immediate Action
    Required", whatever the revenue is. *)
Theorem app_zero_churn_or_cac_is_critical (i : App.inputs) :
  App.in_churn_rate_pct i == 0 \/ App.in_cac i == 0 ->
  exists out,
    App.script i = Ok out
    /\ App.out_ltv_cac_ratio out == 0
    /\ App.status (App.out_recommendations out)
       = "Critical - Immediate Action Required".
Proof.
  intros H. unfold App.script.
  rewrite calculate_ltv_eq. cbn.
  rewrite app_ltv_cac_ratio_eq. cbn. rewrite app_payback_period_eq. cbn.
  eexists. split; [reflexivity|]. cbn.
  match goal with
  | |- ?r == 0 /\ _ =>
      assert (Hr : r == 0); [|split; [exact Hr|]]
  end.
  - destruct (Qltb 0 (App.in_cac i)) eqn:Ek; [|reflexivity].
    apply Qltb_lt in Ek. destruct H as [H|H]; [|lra].
    apply hundredth_zero, Qeq_bool_iff in H. rewrite H.
    unfold Qdiv. now rewrite Qmult_0_l.
  - apply get_recommendations_status. rewrite Hr. reflexivity.
Qed.

Lemma app_zero_churn_or_cac_is_critical_witness :
  exists out,
    App.script {| App.in_arpu := 100; App.in_churn_rate_pct := 0;
                  App.in_gross_margin_pct := 70; App.in_cac := 200 |}
    = Ok out
    /\ App.status (App.out_recommendations out)
       = "Critical - Immediate Action Required".
Proof.
  destruct (app_zero_churn_or_cac_is_critical
              {| App.in_arpu := 100; App.in_churn_rate_pct := 0;
                 App.in_gross_margin_pct := 70; App.in_cac := 200 |})
    as (out & Hrun & _ & Hst); [left; reflexivity|].
  exists out. split; assumption.
Defined.

(** X4.  [calculate_ltv] falls as the churn rises over positive churns,
    and at a churn of at most 1 it is at least one month of margin; but at
    a churn of exactly 0 it is 0, below its value at every positive
    churn. *)
Theorem calculate_ltv_in_churn (arpu gross_margin c1 c2 : Q) :
  0 < arpu -> 0 < gross_margin -> 0 < c1 -> c1 <= c2 ->
  exists l0 l1 l2,
    App.calculate_ltv arpu 0 gross_margin = Ok l0
    /\ App.calculate_ltv arpu c1 gross_margin = Ok l1
    /\ App.calculate_ltv arpu c2 gross_margin = Ok l2
    /\ l0 == 0 /\ l0 < l2 /\ l2 <= l1
    /\ (c2 <= 1 -> arpu * gross_margin <= l2).
Proof.
  intros Ha Hg H1 H12. rewrite !calculate_ltv_eq.
  assert (E1 : Qeq_bool c1 0 = false).
  { apply not_true_iff_false. rewrite Qeq_bool_iff. lra. }
  assert (E2 : Qeq_bool c2 0 = false).
  { apply not_true_iff_false. rewrite Qeq_bool_iff. lra. }
  rewrite E1, E2. cbn. eexists _, _, _.
  repeat (split; [reflexivity|]).
  assert (Hi2 : 0 < 1 / c2) by (apply Qdiv_pos; lra).
  assert (Hi12 : 1 / c2 <= 1 / c1) by (apply Qdiv_le_compat_l; lra).
  repeat split.
  - apply Qmult_lt_0_compat; [apply Qmult_lt_0_compat|]; assumption.
  - apply Qmult_le_compat_r; [|lra].
    rewrite (Qmult_comm arpu (1 / c2)), (Qmult_comm arpu (1 / c1)).
    apply Qmult_le_compat_r; lra.
  - intros Hc2. assert (1 <= 1 / c2).
    { apply Qle_shift_div_l; lra. }
    apply Qmult_le_compat_r; [|lra]. nra.
Qed.

Lemma calculate_ltv_in_churn_witness :
  exists l0 l1 l2,
    App.calculate_ltv 100 0 (7 # 10) = Ok l0
    /\ App.calculate_ltv 100 (5 # 100) (7 # 10) = Ok l1
    /\ App.calculate_ltv 100 (1 # 10) (7 # 10) = Ok l2
    /\ l0 < l2 /\ l2 <= l1.
Proof.
  destruct (calculate_ltv_in_churn 100 (7 # 10) (5 # 100) (1 # 10))
    as (l0 & l1 & l2 & H0 & H1 & H2 & _ & Hlt & Hle & _); try lra.
  exists l0, l1, l2. repeat split; assumption.
Defined.

(** ** The three classifiers of the ratio, side by side *)

Lemma calculator_classify_by_range (ratio : Q) :
  (Calculator.classify ratio = Calculator.Critical <-> ratio < 1)
  /\ (Calculator.classify ratio = Calculator.NeedsWork
      <-> 1 <= ratio /\ ratio < 3)
  /\ (Calculator.classify ratio = Calculator.Healthy
      <-> 3 <= ratio /\ ratio < 5)
  /\ (Calculator.classify ratio = Calculator.Excellent <-> 5 <= ratio).
Proof.
  unfold Calculator.classify. by_cases_on_Qltb;
    repeat split; intros; try discriminate; try reflexivity; lra.
Qed.

Lemma app_status_by_range (ratio : Q) :
  (App.status (App.get_recommendations ratio)
   = "Critical - Immediate Action Required" <-> ratio < 1)
  /\ (App.status (App.get_recommendations ratio)
      = "Healthy - Room for Improvement" <-> 1 <= ratio /\ ratio <= 3)
  /\ (App.status (App.get_recommendations ratio)
      = "Excellent - Growth Opportunity" <-> 3 < ratio).
Proof.
  unfold App.get_recommendations.
  destruct (Qltb ratio 1) eqn:E1;
    [apply Qltb_lt in E1 | apply Qltb_ge in E1];
    (destruct (Qle_bool 1 ratio) eqn:E2;
     [apply Qle_bool_iff in E2
     |apply not_true_iff_false in E2; rewrite Qle_bool_iff in E2]);
    (destruct (Qle_bool ratio 3) eqn:E3;
     [apply Qle_bool_iff in E3
     |apply not_true_iff_false in E3; rewrite Qle_bool_iff in E3]);
    cbn; repeat split; intros; try discriminate; try reflexivity; lra.
Qed.

(** X5.  [get_recommendations] returns one of three statuses, each with
    five recommendations: Critical exactly when the ratio is below 1,
    Healthy exactly when it is from 1 to 3 inclusive, Excellent exactly
    when it is above 3. *)
Theorem get_recommendations_bands (ltv_cac_ratio : Q) :
  let r := App.get_recommendations ltv_cac_ratio in
  (App.status r = "Critical - Immediate Action Required"
   <-> ltv_cac_ratio < 1)
  /\ (App.status r = "Healthy - Room for Improvement"
      <-> 1 <= ltv_cac_ratio /\ ltv_cac_ratio <= 3)
  /\ (App.status r = "Excellent - Growth Opportunity" <-> 3 < ltv_cac_ratio)
  /\ length (App.recommendations r) = 5%nat.
Proof.
  destruct (app_status_by_range ltv_cac_ratio) as (Hc & Hh & He).
  cbn zeta. split; [exact Hc|]. split; [exact Hh|]. split; [exact He|].
  unfold App.get_recommendations.
  now destruct (Qltb ltv_cac_ratio 1), (Qle_bool 1 ltv_cac_ratio),
    (Qle_bool ltv_cac_ratio 3).
Qed.

(** X6.  The three scripts classify a ratio alike up to what their bands
    can tell apart: below 3 all agree (Critical below 1, the middle band
    from 1 on); the top band of the project script is Healthy and
    Excellent of calculator.py together; and app.py differs from the
    project script exactly at the ratio 3, which it still puts in its
    middle band. *)
Theorem classifiers_side_by_side (ratio : Q) :
  (Project.classify ratio = Project.BandCritical
   <-> Calculator.classify ratio = Calculator.Critical)
  /\ (Project.classify ratio = Project.BandImprove
      <-> Calculator.classify ratio = Calculator.NeedsWork)
  /\ (Project.classify ratio = Project.BandStrong
      <-> Calculator.classify ratio = Calculator.Healthy
          \/ Calculator.classify ratio = Calculator.Excellent)
  /\ (App.status (App.get_recommendations ratio)
      = "Critical - Immediate Action Required"
      <-> Project.classify ratio = Project.BandCritical)
  /\ (App.status (App.get_recommendations ratio)
      = "Healthy - Room for Improvement"
      /\ Project.classify ratio = Project.BandStrong
      <-> ratio == 3).
Proof.
  destruct (project_classify_bands ratio) as (Pc & Pi & Ps).
  destruct (calculator_classify_by_range ratio) as (Cc & Cn & Ch & Ce).
  destruct (app_status_by_range ratio) as (Ac & Ah & Ae).
  rewrite Pc, Pi, Ps, Cc, Cn, Ch, Ce, Ac, Ah.
  repeat split; intros; try lra;
    try (destruct (Qlt_le_dec ratio 5); [left|right]; lra);
    repeat match goal with H : _ \/ _ |- _ => destruct H end; lra.
Qed.

(** ** Order: a better number never gets a worse verdict *)

Ltac by_cases_on_Qltb_all :=
  repeat match goal with
         | |- context [Qltb ?x ?y] =>
             let E := fresh "E" in
             destruct (Qltb x y) eqn:E;
             [apply Qltb_lt in E | apply Qltb_ge in E]
         end;
  cbn [severity tier_rank]; try lia; try lra.

(** X7.  The footer of calculator.py is monotone: a larger ratio is never
    put in a lower tier. *)
Theorem classify_monotone (r1 r2 : Q) :
  r1 <= r2 ->
  (tier_rank (Calculator.classify r1) <= tier_rank (Calculator.classify r2))%nat.
Proof.
  intros H. unfold Calculator.classify. by_cases_on_Qltb_all.
Qed.

Lemma classify_monotone_witness :
  (tier_rank (Calculator.classify 2) <= tier_rank (Calculator.classify 4))%nat.
Proof.
  apply (classify_monotone 2 4). lra.
Defined.

(** X8.  The three boxes of "Key Insights" are monotone in their rate: a
    higher retention, upsell or referral rate never gets a more alarming
    box.  Each is an error below its first threshold (30, 15, 5) and a
    success from its second (50, 25, 15) on. *)
Theorem insights_monotone (r1 r2 : Q) :
  r1 <= r2 ->
  (severity (Calculator.retention_insight r2)
   <= severity (Calculator.retention_insight r1))%nat
  /\ (severity (Calculator.upsell_insight r2)
      <= severity (Calculator.upsell_insight r1))%nat
  /\ (severity (Calculator.referral_insight r2)
      <= severity (Calculator.referral_insight r1))%nat
  /\ (Calculator.retention_insight r1 = Calculator.st_error <-> r1 < 30)
  /\ (Calculator.retention_insight r1 = Calculator.st_success <-> 50 <= r1)
  /\ (Calculator.upsell_insight r1 = Calculator.st_error <-> r1 < 15)
  /\ (Calculator.upsell_insight r1 = Calculator.st_success <-> 25 <= r1)
  /\ (Calculator.referral_insight r1 = Calculator.st_error <-> r1 < 5)
  /\ (Calculator.referral_insight r1 = Calculator.st_success <-> 15 <= r1).
Proof.
  intros H.
  unfold Calculator.retention_insight, Calculator.upsell_insight,
    Calculator.referral_insight.
  repeat apply conj; by_cases_on_Qltb_all;
    intros; try discriminate; try reflexivity; lra.
Qed.

Lemma insights_monotone_witness :
  (severity (Calculator.retention_insight 60)
   <= severity (Calculator.retention_insight 40))%nat.
Proof.
  apply (insights_monotone 40 60). lra.
Defined.

(** X9.  The payback period is shown only when positive, and then a
    longer payback never gets a calmer box: success below 3 months, info
    below 6, warning below 12, error from 12 on. *)
Theorem payback_banner_monotone (p1 p2 : Q) :
  0 < p1 -> p1 <= p2 ->
  exists a1 a2,
    Calculator.payback_banner p1
    = Some (a1, Number p1 1 " months")
    /\ Calculator.payback_banner p2
       = Some (a2, Number p2 1 " months")
    /\ (severity a1 <= severity a2)%nat
    /\ (a1 = Calculator.st_success <-> p1 < 3)
    /\ (a1 = Calculator.st_error <-> 12 <= p1).
Proof.
  intros H1 H12. unfold Calculator.payback_banner.
  rewrite (proj2 (Qltb_lt 0 p1) H1), (proj2 (Qltb_lt 0 p2)) by lra.
  by_cases_on_Qltb_all; eexists _, _;
    (split; [reflexivity|]); (split; [reflexivity|]);
    cbn [severity]; repeat split; intros; try discriminate;
    try reflexivity; try lia; lra.
Qed.

Lemma payback_banner_monotone_witness :
  exists a1 a2,
    Calculator.payback_banner 2 = Some (a1, Number 2 1 " months")
    /\ Calculator.payback_banner 7 = Some (a2, Number 7 1 " months")
    /\ (severity a1 <= severity a2)%nat.
Proof.
  destruct (payback_banner_monotone 2 7) as (a1 & a2 & H1 & H2 & Hs & _);
    try lra.
  exists a1, a2. repeat split; assumption.
Defined.

(** ** Churn over a year and the lifespan (calculator.py, tabs 1 and 3) *)

Lemma pow12_by_cubes (x : Q) :
  x ^ 12 == (x * x * x * (x * x * x)) * (x * x * x * (x * x * x)).
Proof. simpl. ring. Qed.

Lemma cube_monotone (x y : Q) : 0 <= x -> x <= y -> x * x * x <= y * y * y.
Proof.
  intros Hx Hxy. assert (x * x <= y * y) by nra.
  assert (0 <= x * x) by nra. nra.
Qed.

Lemma square_monotone (x y : Q) : 0 <= x -> x <= y -> x * x <= y * y.
Proof. intros Hx Hxy. nra. Qed.

Lemma pow12_monotone (x y : Q) : 0 <= x -> x <= y -> x ^ 12 <= y ^ 12.
Proof.
  intros Hx Hxy. rewrite !pow12_by_cubes.
  assert (Hc : x * x * x <= y * y * y) by now apply cube_monotone.
  assert (Hc0 : 0 <= x * x * x) by (assert (0 <= x * x) by nra; nra).
  assert (Hs : x * x * x * (x * x * x) <= y * y * y * (y * y * y))
    by now apply square_monotone.
  apply square_monotone; [|exact Hs]. nra.
Qed.

Lemma pow12_nonneg (x : Q) : 0 <= x ^ 12.
Proof.
  rewrite pow12_by_cubes.
  set (s := x * x * x * (x * x * x)). nra.
Qed.

Lemma pow12_below (x : Q) : 0 <= x -> x <= 1 -> x ^ 12 <= x.
Proof.
  intros H0 H1. rewrite pow12_by_cubes.
  assert (Hq : 0 <= x * x /\ x * x <= x) by nra.
  assert (Hc : 0 <= x * x * x /\ x * x * x <= x) by nra.
  set (c := x * x * x) in *.
  assert (Hs : 0 <= c * c /\ c * c <= c) by nra.
  set (s := c * c) in *. nra.
Qed.

(** X10.  The annual churn 1 - (1 - r)^12 never exceeds 1, for any monthly
    rate r, also one outside [0,1].  For r in [0,1] it lies between r and
    1 and grows with r. *)
Theorem annual_churn_bounds (r1 r2 : Q) :
  Calculator.annual_churn r1 <= 1
  /\ (0 <= r1 -> r1 <= r2 -> r2 <= 1 ->
      r1 <= Calculator.annual_churn r1
      /\ Calculator.annual_churn r1 <= Calculator.annual_churn r2).
Proof.
  unfold Calculator.annual_churn. split.
  - pose proof (pow12_nonneg (1 - r1)). lra.
  - intros H0 H12 H1. split.
    + pose proof (pow12_below (1 - r1)). lra.
    + pose proof (pow12_monotone (1 - r2) (1 - r1)). lra.
Qed.

Lemma annual_churn_bounds_witness :
  (5 # 100) <= Calculator.annual_churn (5 # 100)
  /\ Calculator.annual_churn (5 # 100) <= Calculator.annual_churn (1 # 10).
Proof.
  apply (annual_churn_bounds (5 # 100) (1 # 10)); lra.
Defined.

(** X11.  With the churn percentage inside the bounds of its widget,
    whenever tab 1 gets a lifespan from it the percentage is positive,
    tab 3 shows that same lifespan for the same monthly rate, and the
    lifespan is at least one month (1/12 year). *)
Theorem lifespan_from_churn (pct years : Q) :
  0 <= pct -> pct <= 100 ->
  Calculator.customer_lifespan (Calculator.UseChurn pct) = Ok years ->
  0 < pct
  /\ Calculator.lifespan_metric (pct / 100) = Ok (Number years 1 " years")
  /\ 1 # 12 <= years.
Proof.
  intros Hmin Hmax Hrun.
  assert (Hp : 0 < pct).
  { destruct (Qlt_le_dec 0 pct) as [H|H]; [exact H|]. exfalso.
    assert (E : pct == 0) by lra.
    assert (Hz : pct / 100 * 12 == 0).
    { rewrite E. reflexivity. }
    unfold Calculator.customer_lifespan in Hrun.
    rewrite (truediv_zero 1 _ Hz) in Hrun. discriminate Hrun. }
  split; [exact Hp|].
  rewrite customer_lifespan_pos in Hrun by exact Hp. injection Hrun as <-.
  pose proof (proj2 (hundredth_pos pct) Hp) as Hr.
  rewrite lifespan_metric_pos by exact Hr. split; [reflexivity|].
  apply Qle_shift_div_l; [lra|].
  unfold Qdiv. change (/ 100) with (1 # 100). lra.
Qed.

Lemma lifespan_from_churn_witness :
  Calculator.lifespan_metric (5 / 100)
  = Ok (Number (1 / (5 / 100 * 12)) 1 " years")
  /\ 1 # 12 <= 1 / (5 / 100 * 12).
Proof.
  destruct (lifespan_from_churn 5 (1 / (5 / 100 * 12)))
    as (_ & Hshown & Hmonth); [lra | lra | reflexivity |].
  split; assumption.
Defined.

(** ** A run of calculator.py, end to end *)

Lemma fst_script (i : Calculator.inputs) (s : session) :
  fst (Calculator.script i s) = rendered i.
Proof. rewrite script_run. now destruct (rendered i). Qed.

Lemma rendered_raise (i : Calculator.inputs) (e : exn) :
  Calculator.customer_lifespan (Calculator.in_lifespan i) = Raise e ->
  rendered i = Raise e.
Proof. intros H. unfold rendered. now rewrite H. Qed.

(** What is rendered once tab 1 has a lifespan. *)
Lemma rendered_ok (i : Calculator.inputs) (lifespan : Q) :
  Calculator.customer_lifespan (Calculator.in_lifespan i) = Ok lifespan ->
  let L := Calculator.ltv (Calculator.in_avg_purchase i)
                          (Calculator.in_purchase_freq i) lifespan in
  let C := if (0 <? Calculator.in_new_customers i)%Z
           then Calculator.in_marketing_spend i
                / inject_Z (Calculator.in_new_customers i)
           else 0 in
  let M := Calculator.monthly_revenue (Calculator.in_avg_purchase i)
                                      (Calculator.in_purchase_freq i) in
  let R := if Qltb 0 C then L / C else 0 in
  let NL := Calculator.new_ltv L (Calculator.in_purchase_value_change i) in
  let NC := Calculator.new_cac C (Calculator.in_cac_reduction i) in
  let NR := if Qltb 0 NC then NL / NC else 0 in
  exists out,
    rendered i = Ok out
    /\ Calculator.out_ltv out = L
    /\ Calculator.out_customer_lifespan out = lifespan
    /\ Calculator.out_cac out = C
    /\ Calculator.out_payback_period out = (if Qltb 0 M then C / M else 0)
    /\ Calculator.out_footer out = Some (R, Calculator.classify R)
    /\ Calculator.sc_new_ltv (Calculator.out_scenario out) = NL
    /\ Calculator.sc_new_cac (Calculator.out_scenario out) = NC
    /\ Calculator.sc_current_ratio (Calculator.out_scenario out) = R
    /\ Calculator.sc_new_ratio (Calculator.out_scenario out) = NR
    /\ Calculator.sc_ratio_delta (Calculator.out_scenario out)
       = (if Qltb 0 R then Number ((NR / R - 1) * 100) 1 "%"
          else Literal "N/A").
Proof.
  intros Hl. cbn zeta. unfold rendered, scenario_of. rewrite Hl, cac_eq.
  unfold mbind, result_bind.
  rewrite payback_period_eq, churn_rate_eq, lifespan_metric_eq.
  rewrite !ratio_eq, ratio_delta_eq.
  eexists. split; [reflexivity|]. cbn. repeat split; reflexivity.
Qed.

Lemma customer_lifespan_cases (c : Calculator.lifespan_choice) :
  (exists pct, c = Calculator.UseChurn pct /\ pct == 0
               /\ Calculator.customer_lifespan c = Raise ZeroDivisionError)
  \/ (exists years, Calculator.customer_lifespan c = Ok years
                    /\ forall pct, c = Calculator.UseChurn pct -> ~ pct == 0).
Proof.
  destruct c as [pct|years].
  - destruct (Qeq_dec pct 0) as [E|E].
    + left. exists pct. repeat split; [exact E|].
      apply truediv_zero. rewrite E. reflexivity.
    + right. eexists. split.
      * apply truediv_nonzero. intros H. apply E.
        apply (proj1 (hundredth_zero pct)). lra.
      * now intros ? [= <-].
  - right. exists years. split; [reflexivity|]. discriminate.
Qed.

(** X13.  After a run that renders, the session holds the LTV and the CAC
    just rendered under [base_ltv] and [base_cac].  When the conversion of
    tab 1 raises, nothing has been written yet: a session that already had
    both keys is left as it was, with the baselines of an earlier run. *)
Theorem script_stores_baselines (i : Calculator.inputs) (s : session) :
  (forall out,
     fst (Calculator.script i s) = Ok out ->
     snd (Calculator.script i s) !! "base_ltv" = Some (Calculator.out_ltv out)
     /\ snd (Calculator.script i s) !! "base_cac"
        = Some (Calculator.out_cac out))
  /\ (forall e,
        Calculator.customer_lifespan (Calculator.in_lifespan i) = Raise e ->
        is_Some (s !! "base_ltv") -> is_Some (s !! "base_cac") ->
        Calculator.script i s = (Raise e, s)).
Proof.
  rewrite script_run. split.
  - destruct (rendered i) as [out|e]; cbn.
    + intros ? [= <-]. now simplify_map_eq.
    + discriminate.
  - intros e He Hl Hc. rewrite (rendered_raise i e He).
    now rewrite init_state_present.
Qed.

(** X14.  With no new customers the CAC is 0, and a run that renders then
    has the ratio 0 everywhere: the footer says Critical whatever the LTV
    is, the payback period is 0, the new ratio of the scenario is 0 and
    its delta reads "N/A". *)
Theorem script_no_new_customers (i : Calculator.inputs) (s : session)
        (out : Calculator.outputs) :
  (Calculator.in_new_customers i <= 0)%Z ->
  fst (Calculator.script i s) = Ok out ->
  Calculator.out_cac out = 0
  /\ Calculator.out_payback_period out == 0
  /\ Calculator.out_footer out = Some (0, Calculator.Critical)
  /\ Calculator.sc_new_ratio (Calculator.out_scenario out) = 0
  /\ Calculator.sc_ratio_delta (Calculator.out_scenario out) = Literal "N/A".
Proof.
  intros Hn. rewrite fst_script.
  destruct (customer_lifespan_cases (Calculator.in_lifespan i))
    as [(pct & _ & _ & Hr)|(years & Hy & _)].
  - now rewrite (rendered_raise i _ Hr).
  - destruct (rendered_ok i years Hy)
      as (o & Ho & _ & _ & Hc & Hp & Hf & _ & _ & _ & Hnr & Hd).
    rewrite Ho. intros [= <-].
    rewrite (proj2 (Z.ltb_ge 0 _) Hn) in *.
    rewrite Hc, Hp, Hf, Hnr, Hd.
    assert (E : Qltb 0 (Calculator.new_cac 0 (Calculator.in_cac_reduction i))
                = false).
    { apply Qltb_ge. unfold Calculator.new_cac. rewrite Qmult_0_l.
      apply Qle_refl. }
    rewrite E. repeat split.
    destruct (Qltb 0 (Calculator.monthly_revenue _ _)); [|reflexivity].
    unfold Qdiv. apply Qmult_0_l.
Qed.

Lemma script_no_new_customers_witness :
  let i := {| Calculator.in_avg_purchase := 50;
              Calculator.in_purchase_freq := 2;
              Calculator.in_lifespan := Calculator.DirectLifespan 3;
              Calculator.in_marketing_spend := 5000;
              Calculator.in_new_customers := 0;
              Calculator.in_churn := Calculator.LostCustomers 1000 50;
              Calculator.in_purchase_value_change := 0;
              Calculator.in_cac_reduction := 0 |} in
  exists out,
    fst (Calculator.script i ∅) = Ok out
    /\ Calculator.out_ltv out == 300
    /\ Calculator.out_footer out = Some (0, Calculator.Critical).
Proof.
  intros i. eexists. split; [vm_compute; reflexivity|].
  split; [reflexivity|].
  eapply (script_no_new_customers i ∅); [cbn; lia|].
  vm_compute. reflexivity.
Defined.

(** X15.  With the widgets inside their bounds, a run that renders shows
    no negative money: LTV, CAC, payback period, the ratio of the footer
    and the LTV and CAC of the scenario are all at least 0. *)
Theorem script_outputs_nonneg (i : Calculator.inputs) (s : session)
        (out : Calculator.outputs) :
  Calculator.widgets_ok i ->
  fst (Calculator.script i s) = Ok out ->
  0 <= Calculator.out_ltv out
  /\ 0 <= Calculator.out_cac out
  /\ 0 <= Calculator.out_payback_period out
  /\ (exists r t, Calculator.out_footer out = Some (r, t) /\ 0 <= r)
  /\ 0 <= Calculator.sc_new_ltv (Calculator.out_scenario out)
  /\ 0 <= Calculator.sc_new_cac (Calculator.out_scenario out).
Proof.
  intros (Ha & Hf & Hl & Hm & Hn & _ & [Hp1 Hp2] & [Hc1 Hc2]).
  rewrite fst_script.
  destruct (customer_lifespan_cases (Calculator.in_lifespan i))
    as [(pct & _ & _ & Hr)|(years & Hy & Hnz)].
  { now rewrite (rendered_raise i _ Hr). }
  destruct (rendered_ok i years Hy)
    as (o & Ho & HL & _ & HC & HP & HF & HNL & HNC & _).
  rewrite Ho. intros [= <-].
  assert (Hyears : 0 <= years).
  { destruct (Calculator.in_lifespan i) as [pct|y]; cbn in Hl.
    - assert (Hpos : 0 < pct).
      { destruct (Qlt_le_dec 0 pct) as [H|H]; [exact H|].
        destruct (Hnz pct eq_refl). lra. }
      rewrite customer_lifespan_pos in Hy by exact Hpos.
      injection Hy as <-. apply Qlt_le_weak, Qdiv_pos; [lra|].
      pose proof (proj2 (hundredth_pos pct) Hpos). lra.
    - now injection Hy as <-. }
  assert (HL0 : 0 <= Calculator.ltv (Calculator.in_avg_purchase i)
                        (Calculator.in_purchase_freq i) years).
  { unfold Calculator.ltv.
    apply Qmult_le_0_compat; [apply Qmult_le_0_compat|]; assumption. }
  set (C := if (0 <? Calculator.in_new_customers i)%Z then _ else _) in *.
  assert (HC0 : 0 <= C).
  { subst C. destruct (0 <? _)%Z eqn:E; [|lra].
    apply Z.ltb_lt, inject_Z_pos in E.
    apply Qle_shift_div_l; [exact E|]. now rewrite Qmult_0_l. }
  assert (Hquot : forall n d, 0 <= n -> 0 <= (if Qltb 0 d then n / d else 0)).
  { intros n d Hn0. destruct (Qltb 0 d) eqn:E; [|lra].
    apply Qltb_lt in E. apply Qle_shift_div_l; [exact E|].
    now rewrite Qmult_0_l. }
  assert (Hfac : forall p : Z, (-50 <= p)%Z -> 0 <= 1 + inject_Z p / 100).
  { intros p Hp. apply Qlt_le_weak, percent_factor_pos. lia. }
  rewrite HL, HC, HP, HF, HNL, HNC. repeat split; auto.
  - eexists _, _. split; [reflexivity|]. now apply Hquot.
  - unfold Calculator.new_ltv. apply Qmult_le_0_compat; auto.
  - unfold Calculator.new_cac. apply Qmult_le_0_compat; auto.
Qed.

Lemma script_outputs_nonneg_witness :
  let i := {| Calculator.in_avg_purchase := 50;
              Calculator.in_purchase_freq := 2;
              Calculator.in_lifespan := Calculator.UseChurn 5;
              Calculator.in_marketing_spend := 5000;
              Calculator.in_new_customers := 50;
              Calculator.in_churn := Calculator.LostCustomers 1000 50;
              Calculator.in_purchase_value_change := -50;
              Calculator.in_cac_reduction := 50 |} in
  exists out,
    fst (Calculator.script i ∅) = Ok out
    /\ 0 <= Calculator.out_ltv out /\ 0 <= Calculator.out_cac out.
Proof.
  intros i. eexists. split; [vm_compute; reflexivity|].
  match goal with
  | |- 0 <= Calculator.out_ltv ?o /\ _ =>
      destruct (script_outputs_nonneg i ∅ o) as (Hl & Hc & _);
      [| |split; assumption]
  end.
  - unfold Calculator.widgets_ok; cbn. repeat split; (lra || lia).
  - vm_compute. reflexivity.
Defined.

(** ** CAC analysis (calculator.py, tab 2) *)

(** X17.  Where a twelfth of the CAC is positive, the monthly ROI is
    shown; it is at least -100, it is -100 when there is no revenue, and it
    is non-negative exactly when the monthly revenue covers that twelfth
    of the CAC. *)
Theorem monthly_roi_sign (cac monthly_revenue : Q) :
  0 < cac / 12 -> 0 <= monthly_revenue ->
  exists roi,
    Calculator.monthly_roi cac monthly_revenue = Ok (Some roi)
    /\ -100 <= roi
    /\ (monthly_revenue == 0 -> roi == -100)
    /\ (0 <= roi <-> cac / 12 <= monthly_revenue).
Proof.
  intros Hc12 Hm. unfold Calculator.monthly_roi.
  assert (Hc : 0 < cac) by now apply twelfth_pos.
  rewrite (proj2 (Qltb_lt 0 cac) Hc), truediv_pos by exact Hc12. cbn.
  eexists. split; [reflexivity|].
  set (c := cac / 12) in *.
  assert (E : (monthly_revenue - c) / c == monthly_revenue / c - 1)
    by (field; lra).
  assert (Hq : 0 <= monthly_revenue / c).
  { apply Qle_shift_div_l; [exact Hc12|]. now rewrite Qmult_0_l. }
  rewrite E. split; [lra|]. split.
  - intros Hz. rewrite Hz. unfold Qdiv. rewrite Qmult_0_l. reflexivity.
  - split; intros H.
    + assert (H1 : 1 <= monthly_revenue / c) by lra.
      assert (H2 : 1 * c <= monthly_revenue / c * c)
        by (apply Qmult_le_compat_r; lra).
      assert (E3 : monthly_revenue / c * c == monthly_revenue)
        by (field; lra).
      lra.
    + assert (1 <= monthly_revenue / c) by (apply Qle_shift_div_l; lra).
      lra.
Qed.

Lemma monthly_roi_sign_witness :
  exists roi,
    Calculator.monthly_roi 100 10 = Ok (Some roi) /\ 0 <= roi.
Proof.
  destruct (monthly_roi_sign 100 10) as (roi & Hr & _ & _ & Hs);
    [reflexivity | lra |].
  exists roi. split; [exact Hr|]. apply Hs. easy.
Defined.



(** ** test_app.py *)

(** X20.  The average revenue of test_app.py never raises, although
    neither widget has a lower bound: with zero or a negative number of
    customers it is 0; with a positive number of customers it has the
    sign of the revenue and, for a non-negative revenue, lies between 0
    and the revenue. *)
Theorem average_revenue_spec (revenue customers : Z) :
  exists average,
    TestApp.average_revenue revenue customers = Ok average
    /\ ((customers <= 0)%Z -> average = 0)
    /\ ((0 < customers)%Z -> (0 <= revenue)%Z ->
        0 <= average <= inject_Z revenue)
    /\ ((0 < customers)%Z -> (revenue <= 0)%Z ->
        inject_Z revenue <= average <= 0).
Proof.
  unfold TestApp.average_revenue.
  destruct (0 <? customers)%Z eqn:E;
    [apply Z.ltb_lt in E | apply Z.ltb_ge in E].
  - pose proof (inject_Z_pos customers E) as Hpos.
    assert (Hone : 1 <= inject_Z customers).
    { assert (H1 : (1 <= customers)%Z) by lia. now rewrite Zle_Qle in H1. }
    rewrite truediv_pos by exact Hpos.
    eexists. split; [reflexivity|]. split; [lia|].
    set (c := inject_Z customers) in *. split; intros _ Hr.
    + rewrite Zle_Qle in Hr. change (inject_Z 0) with 0 in Hr.
      set (r := inject_Z revenue) in *. split.
      * apply Qle_shift_div_l; [exact Hpos|]. now rewrite Qmult_0_l.
      * apply Qle_shift_div_r; [exact Hpos|]. nra.
    + rewrite Zle_Qle in Hr. change (inject_Z 0) with 0 in Hr.
      set (r := inject_Z revenue) in *. split.
      * apply Qle_shift_div_l; [exact Hpos|]. nra.
      * apply Qle_shift_div_r; [exact Hpos|]. now rewrite Qmult_0_l.
  - exists 0. split; [reflexivity|]. split; [reflexivity|]. split; lia.
Qed.

(** ** The project script, tab 2 *)

(** X21.  With non-negative purchase value, frequency and lifespan,
    whenever tab 2 of the project script renders it shows either the CAC
    alone or the CAC, the ratio and the payback period, and the payback
    period it shows is never the text "N/A": the test [ltv > 0] above it
    already implies the test on the revenue. *)
Theorem project_tab2_never_na
        (avg_purchase purchase_freq lifespan cac : Q)
        (ms : list (string * shown)) :
  0 <= avg_purchase -> 0 <= purchase_freq -> 0 <= lifespan ->
  Project.tab2_metrics
    (Calculator.ltv avg_purchase purchase_freq lifespan)
    cac avg_purchase purchase_freq = Ok ms ->
  (length ms = 1%nat \/ length ms = 3%nat)
  /\ ~ In ("CAC Payback Period", Literal "N/A") ms.
Proof.
  intros Ha Hf Hl E. split.
  - revert E. unfold Project.tab2_metrics.
    destruct (Qltb 0 _); [|intros [= <-]; now left].
    destruct (Project.ltv_cac_ratio_metric _ cac); [|discriminate].
    destruct (Project.cac_payback_metric cac avg_purchase purchase_freq);
      [|discriminate].
    intros [= <-]. now right.
  - intros Hin.
    pose proof (project_tab2_payback_rendered
                  avg_purchase purchase_freq lifespan cac _ ms
                  Ha Hf Hl E Hin) as H.
    discriminate H.
Qed.

Lemma project_tab2_never_na_witness :
  exists ms,
    Project.tab2_metrics (Calculator.ltv 50 2 3) 20 50 2 = Ok ms
    /\ length ms = 3%nat
    /\ ~ In ("CAC Payback Period", Literal "N/A") ms.
Proof.
  eexists. split; [vm_compute; reflexivity|]. split; [reflexivity|].
  eapply (project_tab2_never_na 50 2 3 20); try lra.
  vm_compute. reflexivity.
Defined.
